(** * HLW8012 power-metering engine: shallow embedding and checked properties

    The embedding follows the HLW8012 driver class (begin, setMode, getMode,
    toggleMode, the quantity accessors, the calibration calls, setResistors,
    the two edge interrupt handlers and the two staleness checks).

    Integers are kept as [Z] with the wrap-around of the C++ types written
    out.  The targets of this firmware (ESP8266, ESP32) are ILP32: [long],
    [unsigned long], [int] and [unsigned int] have 32 bits, [unsigned char]
    has 8.  [float] is IEEE 754 binary32 and [double] binary64, both taken
    from the executable specification [SpecFloat] of the standard library. *)

From Stdlib Require Import ZArith Bool List Lia.
From Stdlib Require Import SpecFloat.
Import ListNotations.
Local Open Scope Z_scope.

(** ** Machine integers *)

Module Word.

Definition ULONG_MOD : Z := 2 ^ 32.
Definition UCHAR_MOD : Z := 2 ^ 8.
Definition INT_MAX : Z := 2 ^ 31 - 1.
Definition INT_MIN : Z := - 2 ^ 31.

(** Conversion to [unsigned long] / [unsigned int]. *)
Definition ulong (z : Z) : Z := z mod ULONG_MOD.

(** Conversion to [unsigned char]. *)
Definition uchar (z : Z) : Z := z mod UCHAR_MOD.

(** Conversion to (signed) [long]: the cast [(long) x]. *)
Definition to_long (z : Z) : Z := (z + 2 ^ 31) mod ULONG_MOD - 2 ^ 31.

(** [a > b] with [a : long] and [b : unsigned long].  The usual arithmetic
    conversions turn the signed operand into [unsigned long], so the
    comparison is an unsigned one. *)
Definition long_gt_ulong (a b : Z) : bool := b <? ulong a.

(** [a / b] with [a : long] and [b : unsigned long]: an unsigned division
    for the same reason. *)
Definition long_div_ulong (a b : Z) : Z := ulong a / b.

End Word.
Import Word.

(** ** Floating point *)

(** [float] of the source. *)
Definition float : Type := spec_float.
(** [double] of the source. *)
Definition double : Type := spec_float.

Module F32.
Definition prec : Z := 24.
Definition emax : Z := 128.
Definition zero : float := S754_zero false.
Definition of_Z (n : Z) : float := binary_normalize prec emax n 0 false.
Definition mul : float -> float -> float := SFmul prec emax.
Definition div : float -> float -> float := SFdiv prec emax.
Definition add : float -> float -> float := SFadd prec emax.
Definition sub : float -> float -> float := SFsub prec emax.
Definition sqrtf : float -> float := SFsqrt prec emax.
(** [x == y], [x < y] on floats; [a > b] is [ltb b a].  A NaN operand makes
    each of them false. *)
Definition eqb : float -> float -> bool := SFeqb.
Definition ltb : float -> float -> bool := SFltb.
Definition one : float := of_Z 1.
Definition two : float := of_Z 2.

(** [static_cast<int>(x)]: truncation toward zero.  C++ leaves the result
    undefined for NaN and for values outside the range of [int]; the
    soft-float routine of the targets saturates, and so does this model
    (NaN gives 0).  The driver only tests the result against zero, which
    saturation does not change. *)
Definition to_int (x : float) : Z :=
  match x with
  | S754_zero _ => 0
  | S754_nan => 0
  | S754_infinity s => if s then INT_MIN else INT_MAX
  | S754_finite s m e =>
      let a := if 0 <=? e then Z.shiftl (Zpos m) e else Z.shiftr (Zpos m) (- e) in
      let v := if s then - a else a in
      Z.max INT_MIN (Z.min INT_MAX v)
  end.
End F32.

Module F64.
Definition prec : Z := 53.
Definition emax : Z := 1024.
Definition of_Z (n : Z) : double := binary_normalize prec emax n 0 false.
Definition mul : double -> double -> double := SFmul prec emax.
Definition div : double -> double -> double := SFdiv prec emax.

(** Promotion of a [float] operand to [double] (exact). *)
Definition of_float (x : float) : double :=
  match x with
  | S754_finite s m e => binary_round prec emax s m e
  | _ => x
  end.

(** Conversion of a [double] to [float] on assignment: rounding to nearest,
    ties to even; too large a magnitude gives an infinity. *)
Definition to_float (x : double) : float :=
  match x with
  | S754_finite s m e => binary_round F32.prec F32.emax s m e
  | _ => x
  end.
End F64.

(** ** The driver object *)

(** [hlw8012_mode_t]: the logical mode of the shared CF1 channel. *)
Inductive hlw8012_mode_t : Set := MODE_CURRENT | MODE_VOLTAGE.

Definition hlw8012_mode_eqb (a b : hlw8012_mode_t) : bool :=
  match a, b with
  | MODE_CURRENT, MODE_CURRENT | MODE_VOLTAGE, MODE_VOLTAGE => true
  | _, _ => false
  end.

(** The data members of the class, under their names, and the output latch of
    the GPIO pins ([gpio p] is [true] when pin [p] was last written HIGH).
    Pin directions ([pinMode]) are written by [begin] only and read by nothing
    in the driver; they are not part of the state. *)
Record HLW8012 : Type := mkHLW8012 {
  _cf_pin : Z;                     (* unsigned char *)
  _cf1_pin : Z;                    (* unsigned char *)
  _sel_pin : Z;                    (* unsigned char *)
  _current_resistor : float;
  _voltage_resistor : float;
  _current_multiplier : float;     (* us/A *)
  _voltage_multiplier : float;     (* us/V *)
  _power_multiplier : float;       (* us/W *)
  _pulse_timeout : Z;              (* unsigned long, us *)
  _voltage_pulse_width : Z;        (* volatile unsigned long, us *)
  _current_pulse_width : Z;        (* volatile unsigned long, us *)
  _power_pulse_width : Z;          (* volatile unsigned long, us *)
  _cf_pulse_count_total : Z;       (* volatile unsigned long *)
  _current : float;
  _voltage : float;
  _power : float;
  _current_mode : Z;               (* unsigned char *)
  _mode : Z;                       (* volatile unsigned char *)
  _use_interrupts : bool;
  _last_cf_interrupt : Z;          (* volatile unsigned long *)
  _first_cf_interrupt : Z;         (* volatile unsigned long *)
  _cf_pulse_count : Z;             (* volatile unsigned long *)
  _last_cf1_interrupt : Z;         (* volatile unsigned long *)
  _first_cf1_interrupt : Z;        (* volatile unsigned long *)
  _cf1_pulse_count : Z;            (* volatile unsigned long *)
  gpio : Z -> bool
}.

(** Assignment to one member. *)

Definition set_cf_pin (v : Z) (s : HLW8012) : HLW8012 :=
  {| _cf_pin := v; _cf1_pin := _cf1_pin s; _sel_pin := _sel_pin s; _current_resistor :=
     _current_resistor s; _voltage_resistor := _voltage_resistor s; _current_multiplier :=
     _current_multiplier s; _voltage_multiplier := _voltage_multiplier s; _power_multiplier :=
     _power_multiplier s; _pulse_timeout := _pulse_timeout s; _voltage_pulse_width :=
     _voltage_pulse_width s; _current_pulse_width := _current_pulse_width s; _power_pulse_width
     := _power_pulse_width s; _cf_pulse_count_total := _cf_pulse_count_total s; _current :=
     _current s; _voltage := _voltage s; _power := _power s; _current_mode := _current_mode s;
     _mode := _mode s; _use_interrupts := _use_interrupts s; _last_cf_interrupt :=
     _last_cf_interrupt s; _first_cf_interrupt := _first_cf_interrupt s; _cf_pulse_count :=
     _cf_pulse_count s; _last_cf1_interrupt := _last_cf1_interrupt s; _first_cf1_interrupt :=
     _first_cf1_interrupt s; _cf1_pulse_count := _cf1_pulse_count s; gpio := gpio s |}.

Definition set_cf1_pin (v : Z) (s : HLW8012) : HLW8012 :=
  {| _cf_pin := _cf_pin s; _cf1_pin := v; _sel_pin := _sel_pin s; _current_resistor :=
     _current_resistor s; _voltage_resistor := _voltage_resistor s; _current_multiplier :=
     _current_multiplier s; _voltage_multiplier := _voltage_multiplier s; _power_multiplier :=
     _power_multiplier s; _pulse_timeout := _pulse_timeout s; _voltage_pulse_width :=
     _voltage_pulse_width s; _current_pulse_width := _current_pulse_width s; _power_pulse_width
     := _power_pulse_width s; _cf_pulse_count_total := _cf_pulse_count_total s; _current :=
     _current s; _voltage := _voltage s; _power := _power s; _current_mode := _current_mode s;
     _mode := _mode s; _use_interrupts := _use_interrupts s; _last_cf_interrupt :=
     _last_cf_interrupt s; _first_cf_interrupt := _first_cf_interrupt s; _cf_pulse_count :=
     _cf_pulse_count s; _last_cf1_interrupt := _last_cf1_interrupt s; _first_cf1_interrupt :=
     _first_cf1_interrupt s; _cf1_pulse_count := _cf1_pulse_count s; gpio := gpio s |}.

Definition set_sel_pin (v : Z) (s : HLW8012) : HLW8012 :=
  {| _cf_pin := _cf_pin s; _cf1_pin := _cf1_pin s; _sel_pin := v; _current_resistor :=
     _current_resistor s; _voltage_resistor := _voltage_resistor s; _current_multiplier :=
     _current_multiplier s; _voltage_multiplier := _voltage_multiplier s; _power_multiplier :=
     _power_multiplier s; _pulse_timeout := _pulse_timeout s; _voltage_pulse_width :=
     _voltage_pulse_width s; _current_pulse_width := _current_pulse_width s; _power_pulse_width
     := _power_pulse_width s; _cf_pulse_count_total := _cf_pulse_count_total s; _current :=
     _current s; _voltage := _voltage s; _power := _power s; _current_mode := _current_mode s;
     _mode := _mode s; _use_interrupts := _use_interrupts s; _last_cf_interrupt :=
     _last_cf_interrupt s; _first_cf_interrupt := _first_cf_interrupt s; _cf_pulse_count :=
     _cf_pulse_count s; _last_cf1_interrupt := _last_cf1_interrupt s; _first_cf1_interrupt :=
     _first_cf1_interrupt s; _cf1_pulse_count := _cf1_pulse_count s; gpio := gpio s |}.

Definition set_current_resistor (v : float) (s : HLW8012) : HLW8012 :=
  {| _cf_pin := _cf_pin s; _cf1_pin := _cf1_pin s; _sel_pin := _sel_pin s; _current_resistor
     := v; _voltage_resistor := _voltage_resistor s; _current_multiplier := _current_multiplier
     s; _voltage_multiplier := _voltage_multiplier s; _power_multiplier := _power_multiplier s;
     _pulse_timeout := _pulse_timeout s; _voltage_pulse_width := _voltage_pulse_width s;
     _current_pulse_width := _current_pulse_width s; _power_pulse_width := _power_pulse_width s;
     _cf_pulse_count_total := _cf_pulse_count_total s; _current := _current s; _voltage :=
     _voltage s; _power := _power s; _current_mode := _current_mode s; _mode := _mode s;
     _use_interrupts := _use_interrupts s; _last_cf_interrupt := _last_cf_interrupt s;
     _first_cf_interrupt := _first_cf_interrupt s; _cf_pulse_count := _cf_pulse_count s;
     _last_cf1_interrupt := _last_cf1_interrupt s; _first_cf1_interrupt := _first_cf1_interrupt
     s; _cf1_pulse_count := _cf1_pulse_count s; gpio := gpio s |}.

Definition set_voltage_resistor (v : float) (s : HLW8012) : HLW8012 :=
  {| _cf_pin := _cf_pin s; _cf1_pin := _cf1_pin s; _sel_pin := _sel_pin s; _current_resistor
     := _current_resistor s; _voltage_resistor := v; _current_multiplier := _current_multiplier
     s; _voltage_multiplier := _voltage_multiplier s; _power_multiplier := _power_multiplier s;
     _pulse_timeout := _pulse_timeout s; _voltage_pulse_width := _voltage_pulse_width s;
     _current_pulse_width := _current_pulse_width s; _power_pulse_width := _power_pulse_width s;
     _cf_pulse_count_total := _cf_pulse_count_total s; _current := _current s; _voltage :=
     _voltage s; _power := _power s; _current_mode := _current_mode s; _mode := _mode s;
     _use_interrupts := _use_interrupts s; _last_cf_interrupt := _last_cf_interrupt s;
     _first_cf_interrupt := _first_cf_interrupt s; _cf_pulse_count := _cf_pulse_count s;
     _last_cf1_interrupt := _last_cf1_interrupt s; _first_cf1_interrupt := _first_cf1_interrupt
     s; _cf1_pulse_count := _cf1_pulse_count s; gpio := gpio s |}.

Definition set_current_multiplier (v : float) (s : HLW8012) : HLW8012 :=
  {| _cf_pin := _cf_pin s; _cf1_pin := _cf1_pin s; _sel_pin := _sel_pin s; _current_resistor
     := _current_resistor s; _voltage_resistor := _voltage_resistor s; _current_multiplier := v;
     _voltage_multiplier := _voltage_multiplier s; _power_multiplier := _power_multiplier s;
     _pulse_timeout := _pulse_timeout s; _voltage_pulse_width := _voltage_pulse_width s;
     _current_pulse_width := _current_pulse_width s; _power_pulse_width := _power_pulse_width s;
     _cf_pulse_count_total := _cf_pulse_count_total s; _current := _current s; _voltage :=
     _voltage s; _power := _power s; _current_mode := _current_mode s; _mode := _mode s;
     _use_interrupts := _use_interrupts s; _last_cf_interrupt := _last_cf_interrupt s;
     _first_cf_interrupt := _first_cf_interrupt s; _cf_pulse_count := _cf_pulse_count s;
     _last_cf1_interrupt := _last_cf1_interrupt s; _first_cf1_interrupt := _first_cf1_interrupt
     s; _cf1_pulse_count := _cf1_pulse_count s; gpio := gpio s |}.

Definition set_voltage_multiplier (v : float) (s : HLW8012) : HLW8012 :=
  {| _cf_pin := _cf_pin s; _cf1_pin := _cf1_pin s; _sel_pin := _sel_pin s; _current_resistor
     := _current_resistor s; _voltage_resistor := _voltage_resistor s; _current_multiplier :=
     _current_multiplier s; _voltage_multiplier := v; _power_multiplier := _power_multiplier s;
     _pulse_timeout := _pulse_timeout s; _voltage_pulse_width := _voltage_pulse_width s;
     _current_pulse_width := _current_pulse_width s; _power_pulse_width := _power_pulse_width s;
     _cf_pulse_count_total := _cf_pulse_count_total s; _current := _current s; _voltage :=
     _voltage s; _power := _power s; _current_mode := _current_mode s; _mode := _mode s;
     _use_interrupts := _use_interrupts s; _last_cf_interrupt := _last_cf_interrupt s;
     _first_cf_interrupt := _first_cf_interrupt s; _cf_pulse_count := _cf_pulse_count s;
     _last_cf1_interrupt := _last_cf1_interrupt s; _first_cf1_interrupt := _first_cf1_interrupt
     s; _cf1_pulse_count := _cf1_pulse_count s; gpio := gpio s |}.

Definition set_power_multiplier (v : float) (s : HLW8012) : HLW8012 :=
  {| _cf_pin := _cf_pin s; _cf1_pin := _cf1_pin s; _sel_pin := _sel_pin s; _current_resistor
     := _current_resistor s; _voltage_resistor := _voltage_resistor s; _current_multiplier :=
     _current_multiplier s; _voltage_multiplier := _voltage_multiplier s; _power_multiplier := v;
     _pulse_timeout := _pulse_timeout s; _voltage_pulse_width := _voltage_pulse_width s;
     _current_pulse_width := _current_pulse_width s; _power_pulse_width := _power_pulse_width s;
     _cf_pulse_count_total := _cf_pulse_count_total s; _current := _current s; _voltage :=
     _voltage s; _power := _power s; _current_mode := _current_mode s; _mode := _mode s;
     _use_interrupts := _use_interrupts s; _last_cf_interrupt := _last_cf_interrupt s;
     _first_cf_interrupt := _first_cf_interrupt s; _cf_pulse_count := _cf_pulse_count s;
     _last_cf1_interrupt := _last_cf1_interrupt s; _first_cf1_interrupt := _first_cf1_interrupt
     s; _cf1_pulse_count := _cf1_pulse_count s; gpio := gpio s |}.

Definition set_pulse_timeout (v : Z) (s : HLW8012) : HLW8012 :=
  {| _cf_pin := _cf_pin s; _cf1_pin := _cf1_pin s; _sel_pin := _sel_pin s; _current_resistor
     := _current_resistor s; _voltage_resistor := _voltage_resistor s; _current_multiplier :=
     _current_multiplier s; _voltage_multiplier := _voltage_multiplier s; _power_multiplier :=
     _power_multiplier s; _pulse_timeout := v; _voltage_pulse_width := _voltage_pulse_width s;
     _current_pulse_width := _current_pulse_width s; _power_pulse_width := _power_pulse_width s;
     _cf_pulse_count_total := _cf_pulse_count_total s; _current := _current s; _voltage :=
     _voltage s; _power := _power s; _current_mode := _current_mode s; _mode := _mode s;
     _use_interrupts := _use_interrupts s; _last_cf_interrupt := _last_cf_interrupt s;
     _first_cf_interrupt := _first_cf_interrupt s; _cf_pulse_count := _cf_pulse_count s;
     _last_cf1_interrupt := _last_cf1_interrupt s; _first_cf1_interrupt := _first_cf1_interrupt
     s; _cf1_pulse_count := _cf1_pulse_count s; gpio := gpio s |}.

Definition set_voltage_pulse_width (v : Z) (s : HLW8012) : HLW8012 :=
  {| _cf_pin := _cf_pin s; _cf1_pin := _cf1_pin s; _sel_pin := _sel_pin s; _current_resistor
     := _current_resistor s; _voltage_resistor := _voltage_resistor s; _current_multiplier :=
     _current_multiplier s; _voltage_multiplier := _voltage_multiplier s; _power_multiplier :=
     _power_multiplier s; _pulse_timeout := _pulse_timeout s; _voltage_pulse_width := v;
     _current_pulse_width := _current_pulse_width s; _power_pulse_width := _power_pulse_width s;
     _cf_pulse_count_total := _cf_pulse_count_total s; _current := _current s; _voltage :=
     _voltage s; _power := _power s; _current_mode := _current_mode s; _mode := _mode s;
     _use_interrupts := _use_interrupts s; _last_cf_interrupt := _last_cf_interrupt s;
     _first_cf_interrupt := _first_cf_interrupt s; _cf_pulse_count := _cf_pulse_count s;
     _last_cf1_interrupt := _last_cf1_interrupt s; _first_cf1_interrupt := _first_cf1_interrupt
     s; _cf1_pulse_count := _cf1_pulse_count s; gpio := gpio s |}.

Definition set_current_pulse_width (v : Z) (s : HLW8012) : HLW8012 :=
  {| _cf_pin := _cf_pin s; _cf1_pin := _cf1_pin s; _sel_pin := _sel_pin s; _current_resistor
     := _current_resistor s; _voltage_resistor := _voltage_resistor s; _current_multiplier :=
     _current_multiplier s; _voltage_multiplier := _voltage_multiplier s; _power_multiplier :=
     _power_multiplier s; _pulse_timeout := _pulse_timeout s; _voltage_pulse_width :=
     _voltage_pulse_width s; _current_pulse_width := v; _power_pulse_width := _power_pulse_width
     s; _cf_pulse_count_total := _cf_pulse_count_total s; _current := _current s; _voltage :=
     _voltage s; _power := _power s; _current_mode := _current_mode s; _mode := _mode s;
     _use_interrupts := _use_interrupts s; _last_cf_interrupt := _last_cf_interrupt s;
     _first_cf_interrupt := _first_cf_interrupt s; _cf_pulse_count := _cf_pulse_count s;
     _last_cf1_interrupt := _last_cf1_interrupt s; _first_cf1_interrupt := _first_cf1_interrupt
     s; _cf1_pulse_count := _cf1_pulse_count s; gpio := gpio s |}.

Definition set_power_pulse_width (v : Z) (s : HLW8012) : HLW8012 :=
  {| _cf_pin := _cf_pin s; _cf1_pin := _cf1_pin s; _sel_pin := _sel_pin s; _current_resistor
     := _current_resistor s; _voltage_resistor := _voltage_resistor s; _current_multiplier :=
     _current_multiplier s; _voltage_multiplier := _voltage_multiplier s; _power_multiplier :=
     _power_multiplier s; _pulse_timeout := _pulse_timeout s; _voltage_pulse_width :=
     _voltage_pulse_width s; _current_pulse_width := _current_pulse_width s; _power_pulse_width
     := v; _cf_pulse_count_total := _cf_pulse_count_total s; _current := _current s; _voltage :=
     _voltage s; _power := _power s; _current_mode := _current_mode s; _mode := _mode s;
     _use_interrupts := _use_interrupts s; _last_cf_interrupt := _last_cf_interrupt s;
     _first_cf_interrupt := _first_cf_interrupt s; _cf_pulse_count := _cf_pulse_count s;
     _last_cf1_interrupt := _last_cf1_interrupt s; _first_cf1_interrupt := _first_cf1_interrupt
     s; _cf1_pulse_count := _cf1_pulse_count s; gpio := gpio s |}.

Definition set_cf_pulse_count_total (v : Z) (s : HLW8012) : HLW8012 :=
  {| _cf_pin := _cf_pin s; _cf1_pin := _cf1_pin s; _sel_pin := _sel_pin s; _current_resistor
     := _current_resistor s; _voltage_resistor := _voltage_resistor s; _current_multiplier :=
     _current_multiplier s; _voltage_multiplier := _voltage_multiplier s; _power_multiplier :=
     _power_multiplier s; _pulse_timeout := _pulse_timeout s; _voltage_pulse_width :=
     _voltage_pulse_width s; _current_pulse_width := _current_pulse_width s; _power_pulse_width
     := _power_pulse_width s; _cf_pulse_count_total := v; _current := _current s; _voltage :=
     _voltage s; _power := _power s; _current_mode := _current_mode s; _mode := _mode s;
     _use_interrupts := _use_interrupts s; _last_cf_interrupt := _last_cf_interrupt s;
     _first_cf_interrupt := _first_cf_interrupt s; _cf_pulse_count := _cf_pulse_count s;
     _last_cf1_interrupt := _last_cf1_interrupt s; _first_cf1_interrupt := _first_cf1_interrupt
     s; _cf1_pulse_count := _cf1_pulse_count s; gpio := gpio s |}.

Definition set_current (v : float) (s : HLW8012) : HLW8012 :=
  {| _cf_pin := _cf_pin s; _cf1_pin := _cf1_pin s; _sel_pin := _sel_pin s; _current_resistor
     := _current_resistor s; _voltage_resistor := _voltage_resistor s; _current_multiplier :=
     _current_multiplier s; _voltage_multiplier := _voltage_multiplier s; _power_multiplier :=
     _power_multiplier s; _pulse_timeout := _pulse_timeout s; _voltage_pulse_width :=
     _voltage_pulse_width s; _current_pulse_width := _current_pulse_width s; _power_pulse_width
     := _power_pulse_width s; _cf_pulse_count_total := _cf_pulse_count_total s; _current := v;
     _voltage := _voltage s; _power := _power s; _current_mode := _current_mode s; _mode := _mode
     s; _use_interrupts := _use_interrupts s; _last_cf_interrupt := _last_cf_interrupt s;
     _first_cf_interrupt := _first_cf_interrupt s; _cf_pulse_count := _cf_pulse_count s;
     _last_cf1_interrupt := _last_cf1_interrupt s; _first_cf1_interrupt := _first_cf1_interrupt
     s; _cf1_pulse_count := _cf1_pulse_count s; gpio := gpio s |}.

Definition set_voltage (v : float) (s : HLW8012) : HLW8012 :=
  {| _cf_pin := _cf_pin s; _cf1_pin := _cf1_pin s; _sel_pin := _sel_pin s; _current_resistor
     := _current_resistor s; _voltage_resistor := _voltage_resistor s; _current_multiplier :=
     _current_multiplier s; _voltage_multiplier := _voltage_multiplier s; _power_multiplier :=
     _power_multiplier s; _pulse_timeout := _pulse_timeout s; _voltage_pulse_width :=
     _voltage_pulse_width s; _current_pulse_width := _current_pulse_width s; _power_pulse_width
     := _power_pulse_width s; _cf_pulse_count_total := _cf_pulse_count_total s; _current :=
     _current s; _voltage := v; _power := _power s; _current_mode := _current_mode s; _mode :=
     _mode s; _use_interrupts := _use_interrupts s; _last_cf_interrupt := _last_cf_interrupt s;
     _first_cf_interrupt := _first_cf_interrupt s; _cf_pulse_count := _cf_pulse_count s;
     _last_cf1_interrupt := _last_cf1_interrupt s; _first_cf1_interrupt := _first_cf1_interrupt
     s; _cf1_pulse_count := _cf1_pulse_count s; gpio := gpio s |}.

Definition set_power (v : float) (s : HLW8012) : HLW8012 :=
  {| _cf_pin := _cf_pin s; _cf1_pin := _cf1_pin s; _sel_pin := _sel_pin s; _current_resistor
     := _current_resistor s; _voltage_resistor := _voltage_resistor s; _current_multiplier :=
     _current_multiplier s; _voltage_multiplier := _voltage_multiplier s; _power_multiplier :=
     _power_multiplier s; _pulse_timeout := _pulse_timeout s; _voltage_pulse_width :=
     _voltage_pulse_width s; _current_pulse_width := _current_pulse_width s; _power_pulse_width
     := _power_pulse_width s; _cf_pulse_count_total := _cf_pulse_count_total s; _current :=
     _current s; _voltage := _voltage s; _power := v; _current_mode := _current_mode s; _mode :=
     _mode s; _use_interrupts := _use_interrupts s; _last_cf_interrupt := _last_cf_interrupt s;
     _first_cf_interrupt := _first_cf_interrupt s; _cf_pulse_count := _cf_pulse_count s;
     _last_cf1_interrupt := _last_cf1_interrupt s; _first_cf1_interrupt := _first_cf1_interrupt
     s; _cf1_pulse_count := _cf1_pulse_count s; gpio := gpio s |}.

Definition set_current_mode (v : Z) (s : HLW8012) : HLW8012 :=
  {| _cf_pin := _cf_pin s; _cf1_pin := _cf1_pin s; _sel_pin := _sel_pin s; _current_resistor
     := _current_resistor s; _voltage_resistor := _voltage_resistor s; _current_multiplier :=
     _current_multiplier s; _voltage_multiplier := _voltage_multiplier s; _power_multiplier :=
     _power_multiplier s; _pulse_timeout := _pulse_timeout s; _voltage_pulse_width :=
     _voltage_pulse_width s; _current_pulse_width := _current_pulse_width s; _power_pulse_width
     := _power_pulse_width s; _cf_pulse_count_total := _cf_pulse_count_total s; _current :=
     _current s; _voltage := _voltage s; _power := _power s; _current_mode := v; _mode := _mode
     s; _use_interrupts := _use_interrupts s; _last_cf_interrupt := _last_cf_interrupt s;
     _first_cf_interrupt := _first_cf_interrupt s; _cf_pulse_count := _cf_pulse_count s;
     _last_cf1_interrupt := _last_cf1_interrupt s; _first_cf1_interrupt := _first_cf1_interrupt
     s; _cf1_pulse_count := _cf1_pulse_count s; gpio := gpio s |}.

Definition set_mode (v : Z) (s : HLW8012) : HLW8012 :=
  {| _cf_pin := _cf_pin s; _cf1_pin := _cf1_pin s; _sel_pin := _sel_pin s; _current_resistor
     := _current_resistor s; _voltage_resistor := _voltage_resistor s; _current_multiplier :=
     _current_multiplier s; _voltage_multiplier := _voltage_multiplier s; _power_multiplier :=
     _power_multiplier s; _pulse_timeout := _pulse_timeout s; _voltage_pulse_width :=
     _voltage_pulse_width s; _current_pulse_width := _current_pulse_width s; _power_pulse_width
     := _power_pulse_width s; _cf_pulse_count_total := _cf_pulse_count_total s; _current :=
     _current s; _voltage := _voltage s; _power := _power s; _current_mode := _current_mode s;
     _mode := v; _use_interrupts := _use_interrupts s; _last_cf_interrupt := _last_cf_interrupt
     s; _first_cf_interrupt := _first_cf_interrupt s; _cf_pulse_count := _cf_pulse_count s;
     _last_cf1_interrupt := _last_cf1_interrupt s; _first_cf1_interrupt := _first_cf1_interrupt
     s; _cf1_pulse_count := _cf1_pulse_count s; gpio := gpio s |}.

Definition set_use_interrupts (v : bool) (s : HLW8012) : HLW8012 :=
  {| _cf_pin := _cf_pin s; _cf1_pin := _cf1_pin s; _sel_pin := _sel_pin s; _current_resistor
     := _current_resistor s; _voltage_resistor := _voltage_resistor s; _current_multiplier :=
     _current_multiplier s; _voltage_multiplier := _voltage_multiplier s; _power_multiplier :=
     _power_multiplier s; _pulse_timeout := _pulse_timeout s; _voltage_pulse_width :=
     _voltage_pulse_width s; _current_pulse_width := _current_pulse_width s; _power_pulse_width
     := _power_pulse_width s; _cf_pulse_count_total := _cf_pulse_count_total s; _current :=
     _current s; _voltage := _voltage s; _power := _power s; _current_mode := _current_mode s;
     _mode := _mode s; _use_interrupts := v; _last_cf_interrupt := _last_cf_interrupt s;
     _first_cf_interrupt := _first_cf_interrupt s; _cf_pulse_count := _cf_pulse_count s;
     _last_cf1_interrupt := _last_cf1_interrupt s; _first_cf1_interrupt := _first_cf1_interrupt
     s; _cf1_pulse_count := _cf1_pulse_count s; gpio := gpio s |}.

Definition set_last_cf_interrupt (v : Z) (s : HLW8012) : HLW8012 :=
  {| _cf_pin := _cf_pin s; _cf1_pin := _cf1_pin s; _sel_pin := _sel_pin s; _current_resistor
     := _current_resistor s; _voltage_resistor := _voltage_resistor s; _current_multiplier :=
     _current_multiplier s; _voltage_multiplier := _voltage_multiplier s; _power_multiplier :=
     _power_multiplier s; _pulse_timeout := _pulse_timeout s; _voltage_pulse_width :=
     _voltage_pulse_width s; _current_pulse_width := _current_pulse_width s; _power_pulse_width
     := _power_pulse_width s; _cf_pulse_count_total := _cf_pulse_count_total s; _current :=
     _current s; _voltage := _voltage s; _power := _power s; _current_mode := _current_mode s;
     _mode := _mode s; _use_interrupts := _use_interrupts s; _last_cf_interrupt := v;
     _first_cf_interrupt := _first_cf_interrupt s; _cf_pulse_count := _cf_pulse_count s;
     _last_cf1_interrupt := _last_cf1_interrupt s; _first_cf1_interrupt := _first_cf1_interrupt
     s; _cf1_pulse_count := _cf1_pulse_count s; gpio := gpio s |}.

Definition set_first_cf_interrupt (v : Z) (s : HLW8012) : HLW8012 :=
  {| _cf_pin := _cf_pin s; _cf1_pin := _cf1_pin s; _sel_pin := _sel_pin s; _current_resistor
     := _current_resistor s; _voltage_resistor := _voltage_resistor s; _current_multiplier :=
     _current_multiplier s; _voltage_multiplier := _voltage_multiplier s; _power_multiplier :=
     _power_multiplier s; _pulse_timeout := _pulse_timeout s; _voltage_pulse_width :=
     _voltage_pulse_width s; _current_pulse_width := _current_pulse_width s; _power_pulse_width
     := _power_pulse_width s; _cf_pulse_count_total := _cf_pulse_count_total s; _current :=
     _current s; _voltage := _voltage s; _power := _power s; _current_mode := _current_mode s;
     _mode := _mode s; _use_interrupts := _use_interrupts s; _last_cf_interrupt :=
     _last_cf_interrupt s; _first_cf_interrupt := v; _cf_pulse_count := _cf_pulse_count s;
     _last_cf1_interrupt := _last_cf1_interrupt s; _first_cf1_interrupt := _first_cf1_interrupt
     s; _cf1_pulse_count := _cf1_pulse_count s; gpio := gpio s |}.

Definition set_cf_pulse_count (v : Z) (s : HLW8012) : HLW8012 :=
  {| _cf_pin := _cf_pin s; _cf1_pin := _cf1_pin s; _sel_pin := _sel_pin s; _current_resistor
     := _current_resistor s; _voltage_resistor := _voltage_resistor s; _current_multiplier :=
     _current_multiplier s; _voltage_multiplier := _voltage_multiplier s; _power_multiplier :=
     _power_multiplier s; _pulse_timeout := _pulse_timeout s; _voltage_pulse_width :=
     _voltage_pulse_width s; _current_pulse_width := _current_pulse_width s; _power_pulse_width
     := _power_pulse_width s; _cf_pulse_count_total := _cf_pulse_count_total s; _current :=
     _current s; _voltage := _voltage s; _power := _power s; _current_mode := _current_mode s;
     _mode := _mode s; _use_interrupts := _use_interrupts s; _last_cf_interrupt :=
     _last_cf_interrupt s; _first_cf_interrupt := _first_cf_interrupt s; _cf_pulse_count := v;
     _last_cf1_interrupt := _last_cf1_interrupt s; _first_cf1_interrupt := _first_cf1_interrupt
     s; _cf1_pulse_count := _cf1_pulse_count s; gpio := gpio s |}.

Definition set_last_cf1_interrupt (v : Z) (s : HLW8012) : HLW8012 :=
  {| _cf_pin := _cf_pin s; _cf1_pin := _cf1_pin s; _sel_pin := _sel_pin s; _current_resistor
     := _current_resistor s; _voltage_resistor := _voltage_resistor s; _current_multiplier :=
     _current_multiplier s; _voltage_multiplier := _voltage_multiplier s; _power_multiplier :=
     _power_multiplier s; _pulse_timeout := _pulse_timeout s; _voltage_pulse_width :=
     _voltage_pulse_width s; _current_pulse_width := _current_pulse_width s; _power_pulse_width
     := _power_pulse_width s; _cf_pulse_count_total := _cf_pulse_count_total s; _current :=
     _current s; _voltage := _voltage s; _power := _power s; _current_mode := _current_mode s;
     _mode := _mode s; _use_interrupts := _use_interrupts s; _last_cf_interrupt :=
     _last_cf_interrupt s; _first_cf_interrupt := _first_cf_interrupt s; _cf_pulse_count :=
     _cf_pulse_count s; _last_cf1_interrupt := v; _first_cf1_interrupt := _first_cf1_interrupt s;
     _cf1_pulse_count := _cf1_pulse_count s; gpio := gpio s |}.

Definition set_first_cf1_interrupt (v : Z) (s : HLW8012) : HLW8012 :=
  {| _cf_pin := _cf_pin s; _cf1_pin := _cf1_pin s; _sel_pin := _sel_pin s; _current_resistor
     := _current_resistor s; _voltage_resistor := _voltage_resistor s; _current_multiplier :=
     _current_multiplier s; _voltage_multiplier := _voltage_multiplier s; _power_multiplier :=
     _power_multiplier s; _pulse_timeout := _pulse_timeout s; _voltage_pulse_width :=
     _voltage_pulse_width s; _current_pulse_width := _current_pulse_width s; _power_pulse_width
     := _power_pulse_width s; _cf_pulse_count_total := _cf_pulse_count_total s; _current :=
     _current s; _voltage := _voltage s; _power := _power s; _current_mode := _current_mode s;
     _mode := _mode s; _use_interrupts := _use_interrupts s; _last_cf_interrupt :=
     _last_cf_interrupt s; _first_cf_interrupt := _first_cf_interrupt s; _cf_pulse_count :=
     _cf_pulse_count s; _last_cf1_interrupt := _last_cf1_interrupt s; _first_cf1_interrupt := v;
     _cf1_pulse_count := _cf1_pulse_count s; gpio := gpio s |}.

Definition set_cf1_pulse_count (v : Z) (s : HLW8012) : HLW8012 :=
  {| _cf_pin := _cf_pin s; _cf1_pin := _cf1_pin s; _sel_pin := _sel_pin s; _current_resistor
     := _current_resistor s; _voltage_resistor := _voltage_resistor s; _current_multiplier :=
     _current_multiplier s; _voltage_multiplier := _voltage_multiplier s; _power_multiplier :=
     _power_multiplier s; _pulse_timeout := _pulse_timeout s; _voltage_pulse_width :=
     _voltage_pulse_width s; _current_pulse_width := _current_pulse_width s; _power_pulse_width
     := _power_pulse_width s; _cf_pulse_count_total := _cf_pulse_count_total s; _current :=
     _current s; _voltage := _voltage s; _power := _power s; _current_mode := _current_mode s;
     _mode := _mode s; _use_interrupts := _use_interrupts s; _last_cf_interrupt :=
     _last_cf_interrupt s; _first_cf_interrupt := _first_cf_interrupt s; _cf_pulse_count :=
     _cf_pulse_count s; _last_cf1_interrupt := _last_cf1_interrupt s; _first_cf1_interrupt :=
     _first_cf1_interrupt s; _cf1_pulse_count := v; gpio := gpio s |}.

Definition set_gpio (v : Z -> bool) (s : HLW8012) : HLW8012 :=
  {| _cf_pin := _cf_pin s; _cf1_pin := _cf1_pin s; _sel_pin := _sel_pin s; _current_resistor
     := _current_resistor s; _voltage_resistor := _voltage_resistor s; _current_multiplier :=
     _current_multiplier s; _voltage_multiplier := _voltage_multiplier s; _power_multiplier :=
     _power_multiplier s; _pulse_timeout := _pulse_timeout s; _voltage_pulse_width :=
     _voltage_pulse_width s; _current_pulse_width := _current_pulse_width s; _power_pulse_width
     := _power_pulse_width s; _cf_pulse_count_total := _cf_pulse_count_total s; _current :=
     _current s; _voltage := _voltage s; _power := _power s; _current_mode := _current_mode s;
     _mode := _mode s; _use_interrupts := _use_interrupts s; _last_cf_interrupt :=
     _last_cf_interrupt s; _first_cf_interrupt := _first_cf_interrupt s; _cf_pulse_count :=
     _cf_pulse_count s; _last_cf1_interrupt := _last_cf1_interrupt s; _first_cf1_interrupt :=
     _first_cf1_interrupt s; _cf1_pulse_count := _cf1_pulse_count s; gpio := v |}.

(** ** The platform *)

(** What the platform answers during one accessor call: the reading of
    [micros()] and the width reported by [pulseIn(pin, HIGH, timeout)]
    (0 when it timed out).  Each accessor asks each of them at most once. *)
Record Probe : Type := mkProbe { micros : Z; pulseIn : Z }.

(** The pair every quantity accessor hands back: the returned value and the
    [valid] out-parameter. *)
Record Measurement : Type := mkMeasurement { value : float; valid : bool }.

(** [digitalWrite(pin, val)]: the pin goes LOW for 0 and HIGH otherwise. *)
Definition digitalWrite (pin val : Z) (s : HLW8012) : HLW8012 :=
  set_gpio (fun p => if p =? pin then negb (val =? 0) else gpio s p) s.

(** Modelled from the spec: GPIO_Direct_Access.h, which declares
    [DIRECT_pinWrite] and [DIRECT_pinWrite_ISR], is not among the sources; the
    spec describes them as the fast path of the same select-line write
    ("the hardware select-line write that belongs to a mode toggle ... issued
    directly from the interrupt context"). *)
Definition DIRECT_pinWrite (pin val : Z) (s : HLW8012) : HLW8012 :=
  digitalWrite pin val s.

(** Level of the select line. *)
Definition sel_level (s : HLW8012) : bool := gpio s (_sel_pin s).

(** ** Sample values of the header's constants

    HLW8012.h is not among the sources.  Its macros [V_REF] and [F_OSC] are
    parameters of the embedding, and so are the initial resistor values of a
    fresh object.  The values below are those of the reference circuit of the
    HLW8012 data sheet (2.43 V, 3.579 MHz, 1 mOhm shunt, 2821:1 divider); they
    only instantiate the parameters in closed examples. *)
Definition sample_V_REF : double := F64.div (F64.of_Z 243) (F64.of_Z 100).
Definition sample_F_OSC : double := F64.of_Z 3579000.
Definition sample_R_CURRENT : float :=
  F64.to_float (F64.div (F64.of_Z 1) (F64.of_Z 1000)).
Definition sample_R_VOLTAGE : float := F32.of_Z 2821.

(** Modelled from the spec: the default member initialisers live in HLW8012.h,
    which is not among the sources.  "PulseWindow and PulseWidth state is
    created at engine initialization with all-zero values"; the resistors
    start at the default configuration [r_current], [r_voltage]. *)
Definition power_on (r_current r_voltage : float) : HLW8012 :=
  {| _cf_pin := 0; _cf1_pin := 0; _sel_pin := 0;
     _current_resistor := r_current; _voltage_resistor := r_voltage;
     _current_multiplier := F32.zero; _voltage_multiplier := F32.zero;
     _power_multiplier := F32.zero;
     _pulse_timeout := 0;
     _voltage_pulse_width := 0; _current_pulse_width := 0; _power_pulse_width := 0;
     _cf_pulse_count_total := 0;
     _current := F32.zero; _voltage := F32.zero; _power := F32.zero;
     _current_mode := 1; _mode := 0; _use_interrupts := true;
     _last_cf_interrupt := 0; _first_cf_interrupt := 0; _cf_pulse_count := 0;
     _last_cf1_interrupt := 0; _first_cf1_interrupt := 0; _cf1_pulse_count := 0;
     gpio := fun _ => false |}.

(** ** The member functions *)

Section Driver.

(** The macros of HLW8012.h used by [_calculateDefaultMultipliers], with
    the value they have as [double] operands. *)
Variable V_REF : double.
Variable F_OSC : double.

(** The three right-hand sides are [double] expressions, read left to
    right; the assignment rounds them to [float]. *)
Definition _calculateDefaultMultipliers (s : HLW8012) : HLW8012 :=
  let cr := F64.of_float (_current_resistor s) in
  let vr := F64.of_float (_voltage_resistor s) in
  let s := set_current_multiplier
    (F64.to_float
       (F64.div (F64.div (F64.div
          (F64.mul (F64.mul (F64.of_Z 1000000) (F64.of_Z 512)) V_REF)
          cr) (F64.of_Z 24)) F_OSC)) s in
  let s := set_voltage_multiplier
    (F64.to_float
       (F64.div (F64.div
          (F64.mul (F64.mul (F64.mul (F64.of_Z 1000000) (F64.of_Z 512)) V_REF) vr)
          (F64.of_Z 2)) F_OSC)) s in
  set_power_multiplier
    (F64.to_float
       (F64.div (F64.div (F64.div
          (F64.mul (F64.mul (F64.mul (F64.mul (F64.of_Z 1000000) (F64.of_Z 128))
             V_REF) V_REF) vr)
          cr) (F64.of_Z 48)) F_OSC)) s.

Definition begin (cf_pin cf1_pin sel_pin currentWhen : Z) (use_interrupts : bool)
    (pulse_timeout : Z) (s : HLW8012) : HLW8012 :=
  let s := set_cf_pin cf_pin s in
  let s := set_cf1_pin cf1_pin s in
  let s := set_sel_pin sel_pin s in
  let s := set_current_mode currentWhen s in
  let s := set_use_interrupts use_interrupts s in
  let s := set_pulse_timeout pulse_timeout s in
  let s := _calculateDefaultMultipliers s in
  let s := set_mode (_current_mode s) s in
  digitalWrite (_sel_pin s) (_mode s) s.

Definition resetMultipliers (s : HLW8012) : HLW8012 :=
  _calculateDefaultMultipliers s.

Definition setResistors (current voltage_upstream voltage_downstream : float)
    (s : HLW8012) : HLW8012 :=
  if F32.ltb F32.zero voltage_downstream then
    let s := if F32.ltb F32.zero current then set_current_resistor current s else s in
    let s := set_voltage_resistor
      (F32.div (F32.add voltage_upstream voltage_downstream) voltage_downstream) s in
    _calculateDefaultMultipliers s
  else s.

End Driver.

(** [now] is the reading of [micros()], asked only under interrupts. *)
Definition setMode (mode : hlw8012_mode_t) (now : Z) (s : HLW8012) : HLW8012 :=
  let s := set_mode
    (if hlw8012_mode_eqb mode MODE_CURRENT then _current_mode s
     else uchar (1 - _current_mode s)) s in
  let s := digitalWrite (_sel_pin s) (_mode s) s in
  if _use_interrupts s then
    let s := set_first_cf1_interrupt now s in
    set_last_cf1_interrupt (_first_cf1_interrupt s) s
  else s.

Definition getMode (s : HLW8012) : hlw8012_mode_t :=
  if _mode s =? _current_mode s then MODE_CURRENT else MODE_VOLTAGE.

Definition toggleMode (now : Z) (s : HLW8012) : HLW8012 * hlw8012_mode_t :=
  let new_mode :=
    if hlw8012_mode_eqb (getMode s) MODE_CURRENT then MODE_VOLTAGE else MODE_CURRENT in
  (setMode new_mode now s, new_mode).

Definition _checkCFSignal (now : Z) (s : HLW8012) : HLW8012 :=
  let time_since_last := to_long (now - _last_cf_interrupt s) in
  if long_gt_ulong time_since_last (ulong (2 * _pulse_timeout s)) then
    let s :=
      if _use_interrupts s then
        let s := set_first_cf_interrupt now s in
        let s := set_last_cf_interrupt (_first_cf_interrupt s) s in
        set_cf_pulse_count 0 s
      else s in
    set_power_pulse_width 0 s
  else s.

Definition _checkCF1Signal (now : Z) (s : HLW8012) : HLW8012 :=
  let time_since_last := to_long (now - _last_cf1_interrupt s) in
  if long_gt_ulong time_since_last (_pulse_timeout s) then
    let s :=
      if _use_interrupts s then
        let s := set_first_cf1_interrupt now s in
        let s := set_last_cf1_interrupt (_first_cf1_interrupt s) s in
        set_cf1_pulse_count 0 s
      else s in
    let s :=
      if _mode s =? _current_mode s then set_current_pulse_width 0 s
      else set_voltage_pulse_width 0 s in
    let mode := uchar (1 - _mode s) in
    let s := DIRECT_pinWrite (_sel_pin s) mode s in
    set_mode mode s
  else s.

Definition getCurrent (io : Probe) (s : HLW8012) : HLW8012 * Measurement :=
  let s :=
    if F32.eqb (_power s) F32.zero then set_current_pulse_width 0 s
    else if _use_interrupts s then _checkCF1Signal (micros io) s
    else if _mode s =? _current_mode s then set_current_pulse_width (pulseIn io) s
    else s in
  let current_pulse_width := ulong (_current_pulse_width s) in
  if 0 <? current_pulse_width then
    let s := set_current
      (F32.div (F32.div (_current_multiplier s) (F32.of_Z current_pulse_width)) F32.two) s in
    (s, mkMeasurement (_current s) true)
  else
    let s := set_current F32.zero s in
    (s, mkMeasurement (_current s) false).

Definition getVoltage (io : Probe) (s : HLW8012) : HLW8012 * Measurement :=
  let s :=
    if _use_interrupts s then _checkCF1Signal (micros io) s
    else if negb (_mode s =? _current_mode s) then set_voltage_pulse_width (pulseIn io) s
    else s in
  let voltage_pulse_width := ulong (_voltage_pulse_width s) in
  if 0 <? voltage_pulse_width then
    let s := set_voltage
      (F32.div (F32.div (_voltage_multiplier s) (F32.of_Z voltage_pulse_width)) F32.two) s in
    (s, mkMeasurement (_voltage s) true)
  else
    let s := set_voltage F32.zero s in
    (s, mkMeasurement (_voltage s) false).

Definition getActivePower (io : Probe) (s : HLW8012) : HLW8012 * Measurement :=
  let s :=
    if _use_interrupts s then _checkCFSignal (micros io) s
    else set_power_pulse_width (pulseIn io) s in
  let power_pulse_width := ulong (_power_pulse_width s) in
  if 0 <? power_pulse_width then
    let s := set_power
      (F32.div (F32.div (_power_multiplier s) (F32.of_Z power_pulse_width)) F32.two) s in
    (s, mkMeasurement (_power s) true)
  else
    let s := set_power F32.zero s in
    (s, mkMeasurement (_power s) false).

(** [ioc] serves the call of [getCurrent], [iov] that of [getVoltage]. *)
Definition getApparentPower (ioc iov : Probe) (s : HLW8012) : HLW8012 * Measurement :=
  let '(s, current) := getCurrent ioc s in
  let '(s, voltage) := getVoltage iov s in
  (s, mkMeasurement (F32.mul (value voltage) (value current))
        (valid current && valid voltage)).

Definition getReactivePower (iop ioc iov : Probe) (s : HLW8012) : HLW8012 * Measurement :=
  let '(s, active) := getActivePower iop s in
  let '(s, apparent) := getApparentPower ioc iov s in
  let ok := valid active && valid apparent in
  if F32.ltb (value active) (value apparent) then
    (s, mkMeasurement
          (F32.sqrtf (F32.sub (F32.mul (value apparent) (value apparent))
                              (F32.mul (value active) (value active)))) ok)
  else (s, mkMeasurement F32.zero ok).

Definition getPowerFactor (iop ioc iov : Probe) (s : HLW8012) : HLW8012 * Measurement :=
  let '(s, active) := getActivePower iop s in
  let '(s, apparent) := getApparentPower ioc iov s in
  let ok := valid active && valid apparent in
  if F32.ltb (value apparent) (value active) then (s, mkMeasurement F32.one ok)
  else if F32.eqb (value apparent) F32.zero then (s, mkMeasurement F32.zero ok)
  else (s, mkMeasurement (F32.div (value active) (value apparent)) ok).

Definition getEnergy (s : HLW8012) : float :=
  if negb (_use_interrupts s) then F32.zero
  else
    let pulse_count := F32.of_Z (_cf_pulse_count_total s) in
    F32.div (F32.div (F32.mul pulse_count (_power_multiplier s)) (F32.of_Z 1000000))
            F32.two.

Definition resetEnergy (s : HLW8012) : HLW8012 := set_cf_pulse_count_total 0 s.

Definition expectedCurrent (v : float) (io : Probe) (s : HLW8012) : HLW8012 :=
  let '(s, ok) :=
    if F32.to_int (_current s) =? 0 then
      let '(s, m) := getCurrent io s in (s, valid m)
    else (s, false) in
  if ok && (0 <? F32.to_int (_current s)) then
    set_current_multiplier (F32.mul (_current_multiplier s) (F32.div v (_current s))) s
  else s.

Definition expectedVoltage (v : float) (io : Probe) (s : HLW8012) : HLW8012 :=
  let '(s, ok) :=
    if F32.to_int (_voltage s) =? 0 then
      let '(s, m) := getVoltage io s in (s, valid m)
    else (s, false) in
  if ok && (0 <? F32.to_int (_voltage s)) then
    set_voltage_multiplier (F32.mul (_voltage_multiplier s) (F32.div v (_voltage s))) s
  else s.

Definition expectedActivePower (v : float) (io : Probe) (s : HLW8012) : HLW8012 :=
  let '(s, ok) :=
    if F32.to_int (_power s) =? 0 then
      let '(s, m) := getActivePower io s in (s, valid m)
    else (s, false) in
  if ok && (0 <? F32.to_int (_power s)) then
    set_power_multiplier (F32.mul (_power_multiplier s) (F32.div v (_power s))) s
  else s.

(** The edge handler of the power channel CF; [now] is its reading of
    [micros()]. *)
Definition cf_interrupt (now : Z) (s : HLW8012) : HLW8012 :=
  let last_cf_interrupt := _last_cf_interrupt s in
  let s := set_last_cf_interrupt now s in
  let time_since_first := to_long (now - _first_cf_interrupt s) in
  let s := set_cf_pulse_count_total (ulong (_cf_pulse_count_total s + 1)) s in
  if long_gt_ulong time_since_first (ulong (2 * _pulse_timeout s)) then
    let first_cf_interrupt := _first_cf_interrupt s in
    let pulse_count := _cf_pulse_count s in
    let s := set_first_cf_interrupt now s in
    let s := set_cf_pulse_count 0 s in
    if (last_cf_interrupt =? first_cf_interrupt) || (pulse_count <? 3) then
      set_power_pulse_width 0 s
    else
      let pulse_width :=
        if pulse_count <? 10 then ulong (now - last_cf_interrupt)
        else long_div_ulong time_since_first pulse_count in
      set_power_pulse_width pulse_width s
  else set_cf_pulse_count (ulong (_cf_pulse_count s + 1)) s.

(** The edge handler of the shared channel CF1. *)
Definition cf1_interrupt (now : Z) (s : HLW8012) : HLW8012 :=
  let last_cf1_interrupt := _last_cf1_interrupt s in
  let s := set_last_cf1_interrupt now s in
  let time_since_first := to_long (now - _first_cf1_interrupt s) in
  if long_gt_ulong time_since_first (_pulse_timeout s) then
    let first_cf1_interrupt := _first_cf1_interrupt s in
    let pulse_count := _cf1_pulse_count s in
    let mode := _mode s in
    let newMode := uchar (1 - mode) in
    let s := set_first_cf1_interrupt now s in
    let s := set_cf1_pulse_count 0 s in
    let s := DIRECT_pinWrite (_sel_pin s) newMode s in
    let s := set_mode newMode s in
    if (last_cf1_interrupt =? first_cf1_interrupt) || (pulse_count <? 3) then
      if mode =? _current_mode s then set_current_pulse_width 0 s
      else set_voltage_pulse_width 0 s
    else
      let pulse_width :=
        if pulse_count <? 10 then ulong (now - last_cf1_interrupt)
        else long_div_ulong time_since_first pulse_count in
      if mode =? _current_mode s then set_current_pulse_width pulse_width s
      else set_voltage_pulse_width pulse_width s
  else set_cf1_pulse_count (ulong (_cf1_pulse_count s + 1)) s.

(** ** Vocabulary of the statements *)

(** The two pulse channels of the data model. *)
Inductive Channel : Set := PowerChannel | SharedChannel.

(** The edge handler of a channel. *)
Definition edge (ch : Channel) (now : Z) (s : HLW8012) : HLW8012 :=
  match ch with
  | PowerChannel => cf_interrupt now s
  | SharedChannel => cf1_interrupt now s
  end.

(** The window of a channel: its start, its last edge and its pulse count. *)
Definition window_start (ch : Channel) (s : HLW8012) : Z :=
  match ch with
  | PowerChannel => _first_cf_interrupt s
  | SharedChannel => _first_cf1_interrupt s
  end.

Definition last_edge (ch : Channel) (s : HLW8012) : Z :=
  match ch with
  | PowerChannel => _last_cf_interrupt s
  | SharedChannel => _last_cf1_interrupt s
  end.

Definition pulse_count (ch : Channel) (s : HLW8012) : Z :=
  match ch with
  | PowerChannel => _cf_pulse_count s
  | SharedChannel => _cf1_pulse_count s
  end.

(** The length a window must exceed before an edge closes it. *)
Definition window_length (ch : Channel) (s : HLW8012) : Z :=
  match ch with
  | PowerChannel => ulong (2 * _pulse_timeout s)
  | SharedChannel => _pulse_timeout s
  end.

(** The edge at [now] closes the window of [ch]: the test both handlers make. *)
Definition closes_window (ch : Channel) (now : Z) (s : HLW8012) : bool :=
  long_gt_ulong (to_long (now - window_start ch s)) (window_length ch s).

(** The width of the signal the shared channel carries at physical level
    [mode]. *)
Definition shared_pulse_width (mode : Z) (s : HLW8012) : Z :=
  if mode =? _current_mode s then _current_pulse_width s else _voltage_pulse_width s.

(** The pulse width a window of [ch] feeds: [before] is the state in which the
    closing edge arrives (it fixes which signal the shared channel carries),
    [after] the state the handler leaves. *)
Definition window_result (ch : Channel) (before after : HLW8012) : Z :=
  match ch with
  | PowerChannel => _power_pulse_width after
  | SharedChannel => shared_pulse_width (_mode before) after
  end.

(** The FrequencyEstimator in the words of the specification, section 4.2:
    the sentinel under 3 pulses, the last inter-edge interval under 10, the
    average otherwise. *)
Definition spec_estimate (pulseCount elapsedTime lastInterEdgeInterval : Z) : Z :=
  if pulseCount <? 3 then 0
  else if pulseCount <? 10 then lastInterEdgeInterval
  else elapsedTime / pulseCount.

(** The three directly measured quantities. *)
Inductive Quantity : Set := Current | Voltage | ActivePower.

Definition accessor (q : Quantity) : Probe -> HLW8012 -> HLW8012 * Measurement :=
  match q with
  | Current => getCurrent
  | Voltage => getVoltage
  | ActivePower => getActivePower
  end.

Definition expected (q : Quantity) : float -> Probe -> HLW8012 -> HLW8012 :=
  match q with
  | Current => expectedCurrent
  | Voltage => expectedVoltage
  | ActivePower => expectedActivePower
  end.

Definition pulse_width (q : Quantity) (s : HLW8012) : Z :=
  match q with
  | Current => _current_pulse_width s
  | Voltage => _voltage_pulse_width s
  | ActivePower => _power_pulse_width s
  end.

Definition multiplier (q : Quantity) (s : HLW8012) : float :=
  match q with
  | Current => _current_multiplier s
  | Voltage => _voltage_multiplier s
  | ActivePower => _power_multiplier s
  end.

Definition set_multiplier (q : Quantity) (v : float) (s : HLW8012) : HLW8012 :=
  match q with
  | Current => set_current_multiplier v s
  | Voltage => set_voltage_multiplier v s
  | ActivePower => set_power_multiplier v s
  end.

(** The cached reading of a quantity. *)
Definition reading (q : Quantity) (s : HLW8012) : float :=
  match q with
  | Current => _current s
  | Voltage => _voltage s
  | ActivePower => _power s
  end.

(** A calibration call goes through: the cached reading has integer part 0,
    so a measurement is made, and that measurement is valid with an integer
    part above 0. *)
Definition calibration_succeeds (q : Quantity) (io : Probe) (s : HLW8012) : bool :=
  (F32.to_int (reading q s) =? 0)
  && valid (snd (accessor q io s))
  && (0 <? F32.to_int (value (snd (accessor q io s)))).

(** The level [digitalWrite] gives a pin for the value [v]. *)
Definition pin_level (v : Z) : bool := negb (v =? 0).

(** The level the select line is configured to carry in a logical mode:
    that of [currentWhen] in current mode, the opposite in voltage mode. *)
Definition polarity_level (currentWhen : Z) (m : hlw8012_mode_t) : bool :=
  match m with
  | MODE_CURRENT => pin_level currentWhen
  | MODE_VOLTAGE => negb (pin_level currentWhen)
  end.

Definition opposite (m : hlw8012_mode_t) : hlw8012_mode_t :=
  match m with
  | MODE_CURRENT => MODE_VOLTAGE
  | MODE_VOLTAGE => MODE_CURRENT
  end.

(** The staleness test of [_checkCF1Signal]: no edge on the shared channel
    for longer than the timeout. *)
Definition cf1_stale (now : Z) (s : HLW8012) : bool :=
  long_gt_ulong (to_long (now - _last_cf1_interrupt s)) (_pulse_timeout s).

(** The default multipliers as functions of the resistor values, as
    [_calculateDefaultMultipliers] writes them. *)
Definition default_multiplier (V_REF F_OSC : double) (q : Quantity) (s : HLW8012) : float :=
  multiplier q (_calculateDefaultMultipliers V_REF F_OSC s).

(** ** Runs of the engine *)

(** What can happen to the object after [begin]: a call of a public member
    function, or an edge on one of the two channels. *)
Inductive Call : Type :=
  | call_setMode (mode : hlw8012_mode_t) (now : Z)
  | call_toggleMode (now : Z)
  | call_getCurrent (io : Probe)
  | call_getVoltage (io : Probe)
  | call_getActivePower (io : Probe)
  | call_getApparentPower (ioc iov : Probe)
  | call_getReactivePower (iop ioc iov : Probe)
  | call_getPowerFactor (iop ioc iov : Probe)
  | call_resetEnergy
  | call_expectedCurrent (v : float) (io : Probe)
  | call_expectedVoltage (v : float) (io : Probe)
  | call_expectedActivePower (v : float) (io : Probe)
  | call_resetMultipliers
  | call_setResistors (current voltage_upstream voltage_downstream : float)
  | irq_cf (now : Z)
  | irq_cf1 (now : Z).

Section Runs.

Variable V_REF : double.
Variable F_OSC : double.

Definition run_call (c : Call) (s : HLW8012) : HLW8012 :=
  match c with
  | call_setMode mode now => setMode mode now s
  | call_toggleMode now => fst (toggleMode now s)
  | call_getCurrent io => fst (getCurrent io s)
  | call_getVoltage io => fst (getVoltage io s)
  | call_getActivePower io => fst (getActivePower io s)
  | call_getApparentPower ioc iov => fst (getApparentPower ioc iov s)
  | call_getReactivePower iop ioc iov => fst (getReactivePower iop ioc iov s)
  | call_getPowerFactor iop ioc iov => fst (getPowerFactor iop ioc iov s)
  | call_resetEnergy => resetEnergy s
  | call_expectedCurrent v io => expectedCurrent v io s
  | call_expectedVoltage v io => expectedVoltage v io s
  | call_expectedActivePower v io => expectedActivePower v io s
  | call_resetMultipliers => resetMultipliers V_REF F_OSC s
  | call_setResistors c u d => setResistors V_REF F_OSC c u d s
  | irq_cf now => cf_interrupt now s
  | irq_cf1 now => cf1_interrupt now s
  end.

Definition run (cs : list Call) (s : HLW8012) : HLW8012 :=
  fold_left (fun s c => run_call c s) cs s.

(** The states the engine can be in once [begin] was called with the
    polarity [currentWhen], whatever the object held before. *)
Inductive reachable (currentWhen : Z) : HLW8012 -> Prop :=
  | reach_begin : forall s0 cf_pin cf1_pin sel_pin use_interrupts pulse_timeout,
      reachable currentWhen
        (begin V_REF F_OSC cf_pin cf1_pin sel_pin currentWhen use_interrupts
               pulse_timeout s0)
  | reach_call : forall s c,
      reachable currentWhen s -> reachable currentWhen (run_call c s).

End Runs.

(** The state of the closed examples: a fresh object with the sample
    constants, started on pins 4 (CF), 5 (CF1) and 12 (SEL) with current mode
    on HIGH and a timeout of 1000 us. *)
Definition sample_begin (use_interrupts : bool) : HLW8012 :=
  begin sample_V_REF sample_F_OSC 4 5 12 1 use_interrupts 1000
        (power_on sample_R_CURRENT sample_R_VOLTAGE).

Definition sample_run (use_interrupts : bool) (cs : list Call) : HLW8012 :=
  run sample_V_REF sample_F_OSC cs (sample_begin use_interrupts).

(** ** Sign and class of a float *)

(** The sign bit of a float; [SpecFloat] has one NaN, without sign. *)
Definition signbit (x : spec_float) : bool :=
  match x with
  | S754_zero s | S754_infinity s | S754_finite s _ _ => s
  | S754_nan => false
  end.

(** Finite and different from zero. *)
Definition finite_nonzero (x : spec_float) : bool :=
  match x with
  | S754_finite _ _ _ => true
  | _ => false
  end.

(** ** Invariants of a run *)

(** The mode state is consistent with the polarity [cw]: the polarity is the
    configured one, the physical mode is one of its two levels, and the select
    line carries it. *)
Definition mode_inv (cw : Z) (s : HLW8012) : Prop :=
  _current_mode s = cw /\ (_mode s = cw \/ _mode s = 1 - cw) /\
  sel_level s = pin_level (_mode s).

(** No resistor value and no multiplier has its sign bit set. *)
Definition calibration_signs_clear (s : HLW8012) : Prop :=
  signbit (_current_resistor s) = false /\
  signbit (_voltage_resistor s) = false /\
  forall q, signbit (multiplier q s) = false.

(** The [float] arguments of a call that reach a multiplier unguarded have
    their sign bit clear: the reference value of a calibration call and the
    upstream resistor of [setResistors] (the other two resistor arguments are
    tested against 0 by the code). *)
Definition call_arguments_signless (c : Call) : Prop :=
  match c with
  | call_expectedCurrent v _ | call_expectedVoltage v _ | call_expectedActivePower v _ =>
      signbit v = false
  | call_setResistors _ voltage_upstream _ => signbit voltage_upstream = false
  | _ => True
  end.

(** The resistor values and the multipliers of an object. *)
Definition calibration_view (s : HLW8012) : float * float * (float * float * float) :=
  (_current_resistor s, _voltage_resistor s,
   (_current_multiplier s, _voltage_multiplier s, _power_multiplier s)).

(** ** Closed examples *)

(** A probe of the polling discipline: [pulseIn] reports [w]. *)
Definition polled (w : Z) : Probe := mkProbe 0 w.

(** The largest finite [float], FLT_MAX. *)
Definition float_max : float := S754_finite false 16777215 104.

(** Thirteen edges on CF: the first closes the empty initial window, the
    other twelve fall inside the window it opens at 3000 us. *)
Definition averaging_run : list Call :=
  [irq_cf 3000; irq_cf 3100; irq_cf 3200; irq_cf 3300; irq_cf 3400; irq_cf 3500;
   irq_cf 3600; irq_cf 3700; irq_cf 3800; irq_cf 3900; irq_cf 4000; irq_cf 4100;
   irq_cf 4200].

(** Four edges on CF1 (the first closes the initial window, three are counted),
    then [toggleMode] at 2400 us restarts the window without clearing the
    count. *)
Definition restarted_window_run : list Call :=
  [irq_cf1 2000; irq_cf1 2100; irq_cf1 2200; irq_cf1 2300; call_toggleMode 2400].

(** Interrupt-driven engine with a valid power reading: the window of
    [averaging_run] is closed at 15000 us and the power read at 15100 us.  No
    edge has arrived on CF1. *)
Definition powered_run : list Call :=
  averaging_run ++ [irq_cf 15000; call_getActivePower (mkProbe 15100 0)].

(** Calibration against FLT_MAX, which overflows the power and the voltage
    multiplier to +infinity. *)
Definition overflowing_run : list Call :=
  [call_expectedActivePower float_max (polled 1000); call_getCurrent (polled 1000);
   call_setMode MODE_VOLTAGE 0; call_expectedVoltage float_max (polled 1000)].

(** An engine whose three pulse widths are 1 us and whose multipliers make
    the active and the apparent power both 4. *)
Definition equal_powers_state : HLW8012 :=
  set_power_pulse_width 1 (set_current_pulse_width 1 (set_voltage_pulse_width 1
    (set_power_multiplier (F32.of_Z 8) (set_current_multiplier (F32.of_Z 4)
       (set_voltage_multiplier (F32.of_Z 4) (sample_begin true)))))).

(** ** More of the driver *)

(** [filter(oldvalue, newvalue)], the IIR step [new = (old + 3 * new) / 4]
    whose calls both handlers keep commented out. *)
Definition filter (oldvalue newvalue : Z) : Z :=
  if oldvalue =? 0 then newvalue
  else
    let oldvalue := ulong (oldvalue + ulong (3 * newvalue)) in
    Z.shiftr oldvalue 2.

(** ** Vocabulary of the further statements *)

Definition is_cf_edge (c : Call) : bool :=
  match c with irq_cf _ => true | _ => false end.

Definition is_resetEnergy (c : Call) : bool :=
  match c with call_resetEnergy => true | _ => false end.

(** The calls that configure or calibrate. *)
Definition is_calibration (c : Call) : bool :=
  match c with
  | call_expectedCurrent _ _ | call_expectedVoltage _ _ | call_expectedActivePower _ _
  | call_resetMultipliers | call_setResistors _ _ _ => true
  | _ => false
  end.

(** The edges on CF among the calls of a run. *)
Definition count_cf_edges (cs : list Call) : Z :=
  Z.of_nat (length (List.filter is_cf_edge cs)).

(** Zero or finite: neither an infinity nor NaN. *)
Definition is_finite (x : spec_float) : bool :=
  match x with
  | S754_zero _ | S754_finite _ _ _ => true
  | _ => false
  end.

(** The state of the power channel: its pulse width, its window and the
    energy counter. *)
Definition power_channel_view (s : HLW8012) : Z * (Z * Z * Z) * Z :=
  (_power_pulse_width s,
   (_first_cf_interrupt s, _last_cf_interrupt s, _cf_pulse_count s),
   _cf_pulse_count_total s).

(** The state of the shared channel: its two pulse widths, its window, the
    mode and the output latch. *)
Definition shared_channel_view (s : HLW8012)
  : (Z * Z) * (Z * Z * Z) * Z * (Z -> bool) :=
  ((_current_pulse_width s, _voltage_pulse_width s),
   (_first_cf1_interrupt s, _last_cf1_interrupt s, _cf1_pulse_count s),
   _mode s, gpio s).

Definition is_setResistors (c : Call) : bool :=
  match c with call_setResistors _ _ _ => true | _ => false end.

(** The staleness test of [_checkCFSignal]: no edge on CF for longer than
    twice the timeout. *)
Definition cf_stale (now : Z) (s : HLW8012) : bool :=
  long_gt_ulong (to_long (now - _last_cf_interrupt s)) (ulong (2 * _pulse_timeout s)).

(** The cached readings. *)
Definition readings_view (s : HLW8012) : float * float * float :=
  (_current s, _voltage s, _power s).

(** The current read in polling mode on the sample engine, for a pulse of
    1000 us: about 7.24 A. *)
Definition own_reading : float :=
  value (snd (getCurrent (polled 1000)
                (sample_run false [call_getActivePower (polled 1000)]))).

(** The pulse width an accessor works with, from the state at the call and
    what the platform answers.  [getCurrent] takes 0 when the cached active
    power is 0.  Otherwise, under interrupts, the stored width is taken unless
    the channel is stale, which zeroes the power width, and on the shared
    channel the width of the selected mode; under polling the power width and
    the width of the selected mode are the ones [pulseIn] reports, the width
    of the other mode is the stored one. *)
Definition refreshed_width (q : Quantity) (io : Probe) (s : HLW8012) : Z :=
  match q with
  | Current =>
      if F32.eqb (_power s) F32.zero then 0
      else if _use_interrupts s then
        if cf1_stale (micros io) s && (_mode s =? _current_mode s) then 0
        else _current_pulse_width s
      else if _mode s =? _current_mode s then pulseIn io
      else _current_pulse_width s
  | Voltage =>
      if _use_interrupts s then
        if cf1_stale (micros io) s && negb (_mode s =? _current_mode s) then 0
        else _voltage_pulse_width s
      else if negb (_mode s =? _current_mode s) then pulseIn io
      else _voltage_pulse_width s
  | ActivePower =>
      if _use_interrupts s then
        if cf_stale (micros io) s then 0 else _power_pulse_width s
      else pulseIn io
  end.

(** Polling: the power is read, the current is read with a pulse of 1234 us,
    then the power read times out. *)
Definition lost_power_run : list Call :=
  [call_getActivePower (polled 1000); call_getCurrent (polled 1234);
   call_getActivePower (polled 0)].

Arguments ulong : simpl never.
Arguments uchar : simpl never.
Arguments to_long : simpl never.
Arguments long_gt_ulong : simpl never.
Arguments long_div_ulong : simpl never.
Arguments F32.of_Z : simpl never.
Arguments F32.mul : simpl never.
Arguments F32.div : simpl never.
Arguments F32.add : simpl never.
Arguments F32.sub : simpl never.
Arguments F32.sqrtf : simpl never.
Arguments F32.eqb : simpl never.
Arguments F32.ltb : simpl never.
Arguments F32.to_int : simpl never.
Arguments F64.of_Z : simpl never.
Arguments F64.mul : simpl never.
Arguments F64.div : simpl never.
Arguments F64.of_float : simpl never.
Arguments F64.to_float : simpl never.

#[local] Arguments Z.sub : simpl never.
#[local] Arguments Z.add : simpl never.
#[local] Arguments Z.mul : simpl never.

(** * Properties *)

(** Case analysis on the first test the goal is stuck on. *)
Ltac case_test :=
  match goal with
  | |- context [if ?c then _ else _] =>
      lazymatch c with
      | context [if _ then _ else _] => fail
      | _ => destruct c eqn:?
      end
  end.

Ltac case_tests := repeat (simpl in *; try case_test).

(** Reduction of the member accesses and assignments only. *)
Ltac fields :=
  cbn [_cf_pin _cf1_pin _sel_pin _current_resistor _voltage_resistor
       _current_multiplier _voltage_multiplier _power_multiplier _pulse_timeout
       _voltage_pulse_width _current_pulse_width _power_pulse_width
       _cf_pulse_count_total _current _voltage _power _current_mode _mode
       _use_interrupts _last_cf_interrupt _first_cf_interrupt _cf_pulse_count
       _last_cf1_interrupt _first_cf1_interrupt _cf1_pulse_count gpio
       set_cf_pin set_cf1_pin set_sel_pin set_current_resistor set_voltage_resistor
       set_current_multiplier set_voltage_multiplier set_power_multiplier
       set_pulse_timeout set_voltage_pulse_width set_current_pulse_width
       set_power_pulse_width set_cf_pulse_count_total set_current set_voltage
       set_power set_current_mode set_mode set_use_interrupts
       set_last_cf_interrupt set_first_cf_interrupt set_cf_pulse_count
       set_last_cf1_interrupt set_first_cf1_interrupt set_cf1_pulse_count set_gpio
       fst snd value valid].

(** A goal about the mode state of [f v x] is one about [x] when [f] assigns
    another member. *)
Ltac mode_frame :=
  repeat match goal with
  | |- mode_inv ?cw (?f ?v ?x) => change (mode_inv cw x)
  end.

(** ** Machine integers *)

Lemma ulong_to_long (z : Z) : ulong (to_long z) = ulong z.
Proof.
  unfold ulong, to_long.
  rewrite Zminus_mod_idemp_l.
  f_equal. lia.
Qed.

Lemma uchar_complement_differs (v : Z) : uchar (1 - v) <> v.
Proof.
  unfold uchar, UCHAR_MOD. intro H.
  assert (Hr : 0 <= v < 2 ^ 8) by (rewrite <- H; apply Z.mod_pos_bound; lia).
  change (2 ^ 8) with 256 in *.
  destruct (Z.eq_dec v 0) as [-> | Hv0]; [discriminate H |].
  destruct (Z.eq_dec v 1) as [-> | Hv1]; [discriminate H |].
  assert (Hm : (1 - v) mod 256 = 257 - v).
  { symmetry. apply Z.mod_unique_pos with (q := -1); lia. }
  lia.
Qed.

Lemma ulong_small (z : Z) : 0 <= z < ULONG_MOD -> ulong z = z.
Proof. intro H. unfold ulong. now apply Z.mod_small. Qed.

(** ** Floats *)

Section SignOfRounding.
Variables prec emax : Z.

Lemma signbit_binary_round_aux (s : bool) (m e : Z) (l : location) :
  signbit (binary_round_aux prec emax s m e l) = s \/
  binary_round_aux prec emax s m e l = S754_nan.
Proof.
  unfold binary_round_aux.
  destruct (shr_fexp prec emax m e l) as [mrs' e'].
  destruct (shr_fexp prec emax _ e' loc_Exact) as [mrs'' e''].
  destruct (shr_m mrs'') as [ | p | p ]; simpl; auto.
  destruct (e'' <=? emax - prec); simpl; auto.
Qed.

Lemma signbit_binary_round_aux_false (m e : Z) (l : location) :
  signbit (binary_round_aux prec emax false m e l) = false.
Proof.
  destruct (signbit_binary_round_aux false m e l) as [H | H]; rewrite H; reflexivity.
Qed.

Lemma signbit_binary_round_false (m : positive) (e : Z) :
  signbit (binary_round prec emax false m e) = false.
Proof.
  unfold binary_round.
  destruct (shl_align m e _) as [mz ez].
  apply signbit_binary_round_aux_false.
Qed.

Lemma signbit_SFmul (x y : spec_float) :
  signbit x = false -> signbit y = false -> signbit (SFmul prec emax x y) = false.
Proof.
  destruct x, y; simpl; intros; subst; try reflexivity.
  apply signbit_binary_round_aux_false.
Qed.

Lemma signbit_SFdiv (x y : spec_float) :
  signbit x = false -> signbit y = false -> signbit (SFdiv prec emax x y) = false.
Proof.
  destruct x, y; simpl; intros; subst; try reflexivity.
  destruct (SFdiv_core_binary prec emax _ _ _ _) as [[mz ez] lz].
  apply signbit_binary_round_aux_false.
Qed.

Lemma signbit_SFadd (x y : spec_float) :
  signbit x = false -> signbit y = false -> signbit (SFadd prec emax x y) = false.
Proof.
  destruct x, y; simpl; intros; subst; try reflexivity.
  apply signbit_binary_round_false.
Qed.
End SignOfRounding.

Lemma signbit_positive (x : spec_float) : SFltb (S754_zero false) x = true -> signbit x = false.
Proof. destruct x as [ s | s | | s m e ]; try destruct s; simpl; intro H; try reflexivity; discriminate. Qed.

Lemma signbit_not_negative (x : spec_float) : signbit x = false -> SFltb x (S754_zero false) = false.
Proof. destruct x as [ s | s | | s m e ]; simpl; intro H; subst; reflexivity. Qed.

Lemma SFeqb_finite_eq (x y : spec_float) :
  finite_nonzero x = true -> finite_nonzero y = true -> SFeqb x y = true -> x = y.
Proof.
  destruct x as [ | | | s1 m1 e1 ], y as [ | | | s2 m2 e2 ]; try discriminate.
  intros _ _. unfold SFeqb, SFcompare.
  destruct s1, s2; try discriminate;
    destruct (Z.compare_spec e1 e2); try discriminate; subst;
    destruct (Pos.compare_cont Eq m1 m2) eqn:Hm; try discriminate;
    intros _; apply Pos.compare_eq in Hm; subst; reflexivity.
Qed.

Lemma SFdiv_self (s : bool) (m : positive) (e : Z) :
  SFdiv 24 128 (S754_finite s m e) (S754_finite s m e) = S754_finite false 8388608 (-23).
Proof.
  unfold SFdiv, SFdiv_core_binary.
  replace (Z.min _ (e - e)) with (-24).
  2:{ replace (e - e) with 0 by lia.
      replace (Zdigits2 (Z.pos m) + e - (Zdigits2 (Z.pos m) + e)) with 0 by lia.
      reflexivity. }
  replace (e - e - -24) with 24 by lia.
  assert (Hd : Z.div_eucl (Z.shiftl (Z.pos m) 24) (Z.pos m) = (16777216, 0)).
  { rewrite Z.shiftl_mul_pow2 by lia.
    pose proof (Z.div_eucl_eq (Z.pos m * 2 ^ 24) (Z.pos m) ltac:(lia)) as Heq.
    pose proof (Z.mod_pos_bound (Z.pos m * 2 ^ 24) (Z.pos m) ltac:(lia)) as Hb.
    unfold Z.modulo in Hb.
    destruct (Z.div_eucl (Z.pos m * 2 ^ 24) (Z.pos m)) as [q r].
    change (2 ^ 24) with 16777216 in *.
    assert (q = 16777216) by nia. subst q.
    f_equal. lia. }
  rewrite Hd.
  rewrite xorb_nilpotent.
  unfold new_location.
  destruct (Z.even (Z.pos m)); reflexivity.
Qed.

Lemma SFcompare_finite_refl (s : bool) (m : positive) (e : Z) :
  SFcompare (S754_finite s m e) (S754_finite s m e) = Some Eq.
Proof.
  unfold SFcompare. rewrite Z.compare_refl.
  assert (H : Pos.compare_cont Eq m m = Eq) by apply Pos.compare_refl.
  rewrite H. destruct s; reflexivity.
Qed.

Lemma F32_div_equal (a b : float) :
  finite_nonzero a = true -> finite_nonzero b = true -> F32.eqb a b = true ->
  F32.ltb b a = false /\ F32.eqb b F32.zero = false /\ F32.div a b = F32.one.
Proof.
  intros Ha Hb Heq.
  pose proof (SFeqb_finite_eq a b Ha Hb Heq) as ->.
  destruct b as [ | | | s m e ]; try discriminate.
  unfold F32.ltb, F32.eqb, F32.div, SFltb, SFeqb, F32.prec, F32.emax.
  rewrite SFcompare_finite_refl, SFdiv_self.
  repeat split. destruct s; reflexivity.
Qed.

Lemma signbit_F64_of_float (x : float) : signbit x = false -> signbit (F64.of_float x) = false.
Proof.
  destruct x; simpl; intro H; subst; try reflexivity.
  apply signbit_binary_round_false.
Qed.

Lemma signbit_F64_to_float (x : double) : signbit x = false -> signbit (F64.to_float x) = false.
Proof.
  destruct x; simpl; intro H; subst; try reflexivity.
  apply signbit_binary_round_false.
Qed.

Lemma signbit_to_int_pos (x : float) : 0 < F32.to_int x -> signbit x = false.
Proof.
  destruct x as [ s | s | | s m e ]; simpl; try reflexivity; destruct s; try reflexivity.
  - unfold F32.to_int. lia.
  - unfold F32.to_int, INT_MIN. lia.
  - unfold F32.to_int.
    assert (Ha : 0 <= (if 0 <=? e then Z.shiftl (Z.pos m) e else Z.shiftr (Z.pos m) (- e))).
    { destruct (0 <=? e); [apply Z.shiftl_nonneg | apply Z.shiftr_nonneg]; lia. }
    unfold INT_MIN, INT_MAX. lia.
Qed.

Lemma calibration_signs_default (V F : double) (s : HLW8012) :
  signbit V = false -> signbit F = false ->
  signbit (_current_resistor s) = false -> signbit (_voltage_resistor s) = false ->
  calibration_signs_clear (_calculateDefaultMultipliers V F s).
Proof.
  intros HV HF Hc Hv.
  unfold calibration_signs_clear, _calculateDefaultMultipliers.
  repeat split; try assumption.
  intro q; destruct q;
    cbn [multiplier _current_multiplier _voltage_multiplier _power_multiplier
         set_current_multiplier set_voltage_multiplier set_power_multiplier];
    apply signbit_F64_to_float;
    repeat first [ apply signbit_SFdiv | apply signbit_SFmul
                 | apply signbit_F64_of_float | assumption | reflexivity ].
Qed.

(** ** The state a compound call leaves *)

Lemma getApparentPower_state (ioc iov : Probe) (s : HLW8012) :
  fst (getApparentPower ioc iov s) = fst (getVoltage iov (fst (getCurrent ioc s))).
Proof.
  unfold getApparentPower.
  destruct (getCurrent ioc s) as [s1 c]. simpl.
  destruct (getVoltage iov s1) as [s2 v]. reflexivity.
Qed.

Lemma getReactivePower_state (iop ioc iov : Probe) (s : HLW8012) :
  fst (getReactivePower iop ioc iov s) =
  fst (getApparentPower ioc iov (fst (getActivePower iop s))).
Proof.
  unfold getReactivePower.
  destruct (getActivePower iop s) as [s1 a]. simpl.
  destruct (getApparentPower ioc iov s1) as [s2 b]. simpl.
  destruct (F32.ltb (value a) (value b)); reflexivity.
Qed.

Lemma getPowerFactor_state (iop ioc iov : Probe) (s : HLW8012) :
  fst (getPowerFactor iop ioc iov s) =
  fst (getApparentPower ioc iov (fst (getActivePower iop s))).
Proof.
  unfold getPowerFactor.
  destruct (getActivePower iop s) as [s1 a]. simpl.
  destruct (getApparentPower ioc iov s1) as [s2 b]. simpl.
  destruct (F32.ltb (value b) (value a)); [reflexivity |].
  destruct (F32.eqb (value b) F32.zero); reflexivity.
Qed.

Lemma accessor_reading (q : Quantity) (io : Probe) (s : HLW8012) :
  value (snd (accessor q io s)) = reading q (fst (accessor q io s)).
Proof.
  destruct q; unfold accessor, reading, getCurrent, getVoltage, getActivePower;
    case_tests; reflexivity.
Qed.

Lemma expected_state (q : Quantity) (v : float) (io : Probe) (s : HLW8012) :
  expected q v io s =
    if F32.to_int (reading q s) =? 0 then
      let r := accessor q io s in
      if valid (snd r) && (0 <? F32.to_int (value (snd r))) then
        set_multiplier q
          (F32.mul (multiplier q (fst r)) (F32.div v (value (snd r)))) (fst r)
      else fst r
    else s.
Proof.
  pose proof (accessor_reading q io s) as Hr.
  destruct q; unfold expected, expectedCurrent, expectedVoltage, expectedActivePower,
    accessor, reading, multiplier, set_multiplier in *;
    (destruct (F32.to_int _ =? 0); [| reflexivity]).
  - destruct (getCurrent io s) as [s1 m]. simpl in *. rewrite Hr. reflexivity.
  - destruct (getVoltage io s) as [s1 m]. simpl in *. rewrite Hr. reflexivity.
  - destruct (getActivePower io s) as [s1 m]. simpl in *. rewrite Hr. reflexivity.
Qed.

Lemma accessor_multiplier (q q' : Quantity) (io : Probe) (s : HLW8012) :
  multiplier q' (fst (accessor q io s)) = multiplier q' s.
Proof.
  destruct q, q'; unfold accessor, multiplier, getCurrent, getVoltage, getActivePower,
    _checkCF1Signal, _checkCFSignal, DIRECT_pinWrite, digitalWrite;
    case_tests; reflexivity.
Qed.

(** ** The mode state along a run *)

Lemma mode_inv_checkCF1Signal (cw now : Z) (s : HLW8012) :
  cw = 0 \/ cw = 1 -> mode_inv cw s -> mode_inv cw (_checkCF1Signal now s).
Proof.
  intros Hcw (Hcm & Hm & Hpin).
  unfold mode_inv, sel_level, _checkCF1Signal, DIRECT_pinWrite, digitalWrite in *.
  destruct (long_gt_ulong _ _); [| auto].
  destruct Hcw as [-> | ->], Hm as [Hm | Hm];
    case_tests; rewrite ?Hm, ?Hcm, ?Z.eqb_refl in *; try discriminate;
    vm_compute; auto.
Qed.

Lemma mode_inv_cf1_interrupt (cw now : Z) (s : HLW8012) :
  cw = 0 \/ cw = 1 -> mode_inv cw s -> mode_inv cw (cf1_interrupt now s).
Proof.
  intros Hcw (Hcm & Hm & Hpin).
  unfold mode_inv, sel_level, cf1_interrupt, DIRECT_pinWrite, digitalWrite in *.
  destruct (long_gt_ulong _ _); [| auto].
  destruct Hcw as [-> | ->], Hm as [Hm | Hm];
    case_tests; rewrite ?Hm, ?Hcm, ?Z.eqb_refl in *; try discriminate;
    vm_compute; auto.
Qed.

Lemma mode_inv_setMode (cw now : Z) (m : hlw8012_mode_t) (s : HLW8012) :
  cw = 0 \/ cw = 1 -> mode_inv cw s -> mode_inv cw (setMode m now s).
Proof.
  intros Hcw (Hcm & Hm & Hpin).
  unfold mode_inv, sel_level, setMode, digitalWrite in *.
  destruct Hcw as [-> | ->], m;
    case_tests; rewrite ?Hcm, ?Z.eqb_refl in *; try discriminate;
    vm_compute; auto.
Qed.

Lemma mode_inv_accessor (cw : Z) (q : Quantity) (io : Probe) (s : HLW8012) :
  cw = 0 \/ cw = 1 -> mode_inv cw s -> mode_inv cw (fst (accessor q io s)).
Proof.
  intros Hcw H.
  destruct q; unfold accessor, getCurrent, getVoltage, getActivePower, _checkCFSignal;
    case_tests; mode_frame; auto using mode_inv_checkCF1Signal.
Qed.

Lemma mode_inv_expected (cw : Z) (q : Quantity) (v : float) (io : Probe) (s : HLW8012) :
  cw = 0 \/ cw = 1 -> mode_inv cw s -> mode_inv cw (expected q v io s).
Proof.
  intros Hcw H. rewrite expected_state.
  destruct (F32.to_int (reading q s) =? 0); [| assumption].
  cbv zeta.
  destruct (valid _ && _); [| now apply mode_inv_accessor].
  destruct q; unfold set_multiplier; mode_frame; now apply mode_inv_accessor.
Qed.

Lemma mode_inv_call (V F : double) (cw : Z) (c : Call) (s : HLW8012) :
  cw = 0 \/ cw = 1 -> mode_inv cw s -> mode_inv cw (run_call V F c s).
Proof.
  intros Hcw H.
  destruct c; simpl run_call.
  - now apply mode_inv_setMode.
  - now apply mode_inv_setMode.
  - now apply (mode_inv_accessor cw Current).
  - now apply (mode_inv_accessor cw Voltage).
  - now apply (mode_inv_accessor cw ActivePower).
  - rewrite getApparentPower_state.
    apply (mode_inv_accessor cw Voltage); [assumption |].
    now apply (mode_inv_accessor cw Current).
  - rewrite getReactivePower_state, getApparentPower_state.
    apply (mode_inv_accessor cw Voltage); [assumption |].
    apply (mode_inv_accessor cw Current); [assumption |].
    now apply (mode_inv_accessor cw ActivePower).
  - rewrite getPowerFactor_state, getApparentPower_state.
    apply (mode_inv_accessor cw Voltage); [assumption |].
    apply (mode_inv_accessor cw Current); [assumption |].
    now apply (mode_inv_accessor cw ActivePower).
  - unfold resetEnergy. mode_frame. assumption.
  - now apply (mode_inv_expected cw Current).
  - now apply (mode_inv_expected cw Voltage).
  - now apply (mode_inv_expected cw ActivePower).
  - unfold resetMultipliers, _calculateDefaultMultipliers. mode_frame. assumption.
  - unfold setResistors, _calculateDefaultMultipliers.
    case_tests; mode_frame; assumption.
  - unfold cf_interrupt. case_tests; mode_frame; assumption.
  - now apply mode_inv_cf1_interrupt.
Qed.

Lemma mode_inv_begin (V F : double) (cw : Z) (s0 : HLW8012)
    (cf_pin cf1_pin sel_pin : Z) (irq : bool) (timeout : Z) :
  mode_inv cw (begin V F cf_pin cf1_pin sel_pin cw irq timeout s0).
Proof.
  unfold mode_inv, sel_level, begin, _calculateDefaultMultipliers, digitalWrite. simpl.
  rewrite Z.eqb_refl. auto.
Qed.

Lemma mode_inv_reachable (V F : double) (cw : Z) (s : HLW8012) :
  cw = 0 \/ cw = 1 -> reachable V F cw s -> mode_inv cw s.
Proof.
  intros Hcw Hr. induction Hr.
  - apply mode_inv_begin.
  - now apply mode_inv_call.
Qed.

(** ** The calibration state along a run *)

Lemma calibration_signs_by_view (s s' : HLW8012) :
  calibration_view s' = calibration_view s ->
  calibration_signs_clear s -> calibration_signs_clear s'.
Proof.
  unfold calibration_view, calibration_signs_clear.
  intros Hv (Hc & Hr & Hm).
  injection Hv as -> -> Hmc Hmv Hmp.
  repeat split; try assumption.
  intro q.
  pose proof (Hm Current) as H1. pose proof (Hm Voltage) as H2.
  pose proof (Hm ActivePower) as H3.
  destruct q; unfold multiplier in *; congruence.
Qed.

Lemma calibration_view_accessor (q : Quantity) (io : Probe) (s : HLW8012) :
  calibration_view (fst (accessor q io s)) = calibration_view s.
Proof.
  destruct q; unfold calibration_view, accessor, getCurrent, getVoltage, getActivePower,
    _checkCF1Signal, _checkCFSignal, DIRECT_pinWrite, digitalWrite;
    case_tests; reflexivity.
Qed.

Lemma calibration_view_setMode (m : hlw8012_mode_t) (now : Z) (s : HLW8012) :
  calibration_view (setMode m now s) = calibration_view s.
Proof.
  unfold calibration_view, setMode, digitalWrite; case_tests; reflexivity.
Qed.

Lemma calibration_view_cf_interrupt (now : Z) (s : HLW8012) :
  calibration_view (cf_interrupt now s) = calibration_view s.
Proof.
  unfold calibration_view, cf_interrupt; case_tests; reflexivity.
Qed.

Lemma calibration_view_cf1_interrupt (now : Z) (s : HLW8012) :
  calibration_view (cf1_interrupt now s) = calibration_view s.
Proof.
  unfold calibration_view, cf1_interrupt, DIRECT_pinWrite, digitalWrite;
    case_tests; reflexivity.
Qed.

Lemma calibration_signs_accessor (q : Quantity) (io : Probe) (s : HLW8012) :
  calibration_signs_clear s -> calibration_signs_clear (fst (accessor q io s)).
Proof. apply calibration_signs_by_view, calibration_view_accessor. Qed.

Lemma calibration_signs_set_multiplier (q : Quantity) (v : float) (s : HLW8012) :
  signbit v = false -> calibration_signs_clear s ->
  calibration_signs_clear (set_multiplier q v s).
Proof.
  intros Hv (Hc & Hr & Hm).
  unfold calibration_signs_clear.
  destruct q; simpl; repeat split; try assumption;
    intro q'; destruct q'; simpl; try assumption;
    first [ apply (Hm Current) | apply (Hm Voltage) | apply (Hm ActivePower) ].
Qed.

Lemma calibration_signs_expected (q : Quantity) (v : float) (io : Probe) (s : HLW8012) :
  signbit v = false -> calibration_signs_clear s ->
  calibration_signs_clear (expected q v io s).
Proof.
  intros Hv H. rewrite expected_state.
  destruct (F32.to_int (reading q s) =? 0); [| assumption].
  cbv zeta.
  pose proof (calibration_signs_accessor q io s H) as H1.
  destruct (valid _) ; simpl andb; [| assumption].
  destruct (0 <? F32.to_int (value (snd (accessor q io s)))) eqn:Hpos; [| assumption].
  apply calibration_signs_set_multiplier; [| assumption].
  apply Z.ltb_lt in Hpos. apply signbit_to_int_pos in Hpos.
  apply signbit_SFmul.
  - destruct H1 as (_ & _ & Hm). apply Hm.
  - apply signbit_SFdiv; assumption.
Qed.

Lemma calibration_signs_setResistors (V F : double) (c u d : float) (s : HLW8012) :
  signbit V = false -> signbit F = false -> signbit u = false ->
  calibration_signs_clear s -> calibration_signs_clear (setResistors V F c u d s).
Proof.
  intros HV HF Hu H. unfold setResistors.
  destruct (F32.ltb F32.zero d) eqn:Hd; [| assumption].
  apply signbit_positive in Hd.
  destruct H as (Hc & Hr & _).
  apply calibration_signs_default; try assumption.
  - destruct (F32.ltb F32.zero c) eqn:Hcur; simpl; [| assumption].
    now apply signbit_positive.
  - destruct (F32.ltb F32.zero c); simpl;
      apply signbit_SFdiv; try assumption; apply signbit_SFadd; assumption.
Qed.

Lemma calibration_signs_call (V F : double) (c : Call) (s : HLW8012) :
  signbit V = false -> signbit F = false -> call_arguments_signless c ->
  calibration_signs_clear s -> calibration_signs_clear (run_call V F c s).
Proof.
  intros HV HF Hc H.
  destruct c; simpl run_call; simpl in Hc.
  - revert H. apply calibration_signs_by_view, calibration_view_setMode.
  - revert H. apply calibration_signs_by_view, calibration_view_setMode.
  - now apply (calibration_signs_accessor Current).
  - now apply (calibration_signs_accessor Voltage).
  - now apply (calibration_signs_accessor ActivePower).
  - rewrite getApparentPower_state.
    apply (calibration_signs_accessor Voltage).
    now apply (calibration_signs_accessor Current).
  - rewrite getReactivePower_state, getApparentPower_state.
    apply (calibration_signs_accessor Voltage).
    apply (calibration_signs_accessor Current).
    now apply (calibration_signs_accessor ActivePower).
  - rewrite getPowerFactor_state, getApparentPower_state.
    apply (calibration_signs_accessor Voltage).
    apply (calibration_signs_accessor Current).
    now apply (calibration_signs_accessor ActivePower).
  - revert H. now apply calibration_signs_by_view.
  - now apply (calibration_signs_expected Current).
  - now apply (calibration_signs_expected Voltage).
  - now apply (calibration_signs_expected ActivePower).
  - destruct H as (H1 & H2 & _). now apply calibration_signs_default.
  - now apply calibration_signs_setResistors.
  - revert H. apply calibration_signs_by_view, calibration_view_cf_interrupt.
  - revert H. apply calibration_signs_by_view, calibration_view_cf1_interrupt.
Qed.

Lemma calibration_signs_run (V F : double) (cs : list Call) (s : HLW8012) :
  signbit V = false -> signbit F = false -> Forall call_arguments_signless cs ->
  calibration_signs_clear s -> calibration_signs_clear (run V F cs s).
Proof.
  intros HV HF Hcs. revert s.
  induction Hcs as [| c cs Hc Hcs IH]; intros s H; simpl.
  - assumption.
  - apply IH. now apply calibration_signs_call.
Qed.

Lemma calibration_view_begin (V F : double) (s0 : HLW8012)
    (cf_pin cf1_pin sel_pin cw : Z) (irq : bool) (timeout : Z) :
  calibration_view (begin V F cf_pin cf1_pin sel_pin cw irq timeout s0) =
  calibration_view (_calculateDefaultMultipliers V F s0).
Proof.
  unfold calibration_view, begin, _calculateDefaultMultipliers, digitalWrite.
  fields. reflexivity.
Qed.

Lemma calibration_signs_begin (V F : double) (s0 : HLW8012)
    (cf_pin cf1_pin sel_pin cw : Z) (irq : bool) (timeout : Z) :
  signbit V = false -> signbit F = false ->
  signbit (_current_resistor s0) = false -> signbit (_voltage_resistor s0) = false ->
  calibration_signs_clear (begin V F cf_pin cf1_pin sel_pin cw irq timeout s0).
Proof.
  intros HV HF Hc Hv.
  apply (calibration_signs_by_view _ _ (calibration_view_begin V F s0 _ _ _ _ _ _)).
  now apply calibration_signs_default.
Qed.

Lemma expected_failed (q q' : Quantity) (v : float) (io : Probe) (s : HLW8012) :
  calibration_succeeds q io s = false ->
  multiplier q' (expected q v io s) = multiplier q' s.
Proof.
  unfold calibration_succeeds. intro Hf. rewrite expected_state.
  destruct (F32.to_int (reading q s) =? 0); [| reflexivity].
  cbv zeta. simpl in Hf. rewrite Hf.
  apply accessor_multiplier.
Qed.

(** ** C1: the width a closed window yields *)

(** C1 (as the code has it).  When an edge closes the averaging window of a
    channel, the pulse width the window feeds is the sentinel 0 if no edge was
    recorded since the window was (re)started, that is if the last edge
    timestamp equals the window start; otherwise it is the estimate of the
    specification: 0 under 3 pulses, the interval from the last edge to the
    closing one under 10 pulses, and the elapsed time of the window divided by
    the pulse count (integer division) from 10 pulses on.  Times are taken
    modulo 2^32. *)
Theorem closed_window_width :
  forall (ch : Channel) (now : Z) (s : HLW8012),
    closes_window ch now s = true ->
    window_result ch s (edge ch now s) =
      if last_edge ch s =? window_start ch s then 0
      else spec_estimate (pulse_count ch s)
                         (ulong (now - window_start ch s))
                         (ulong (now - last_edge ch s)).
Proof.
  intros ch now s Hclose.
  destruct ch; unfold closes_window, window_length, window_start in Hclose;
    unfold window_result, edge, cf_interrupt, cf1_interrupt, shared_pulse_width,
      spec_estimate, last_edge, window_start, pulse_count, long_div_ulong;
    simpl in *; rewrite Hclose; rewrite ?ulong_to_long;
    case_tests; try reflexivity; try discriminate.
Qed.

(** The theorem at work: twelve pulses in a window closed after 12000 us give
    1000 us. *)
Lemma closed_window_width_witness :
  window_result PowerChannel (sample_run true averaging_run)
    (edge PowerChannel 15000 (sample_run true averaging_run)) = 1000.
Proof.
  assert (H : closes_window PowerChannel 15000 (sample_run true averaging_run) = true)
    by (vm_compute; reflexivity).
  rewrite (closed_window_width _ _ _ H).
  vm_compute. reflexivity.
Defined.

(** C1 as stated fails: [toggleMode] restarts the window of the shared channel
    (start and last edge become 2400) but leaves the count at 3; the edge at
    3500 closes the window with count 3 and the width is 0, not the 1100 us
    since the last edge timestamp. *)
Lemma closed_window_restarted_by_toggleMode :
  let s := sample_run true restarted_window_run in
  closes_window SharedChannel 3500 s = true /\
  pulse_count SharedChannel s = 3 /\
  ulong (3500 - last_edge SharedChannel s) = 1100 /\
  window_result SharedChannel s (edge SharedChannel 3500 s) = 0 /\
  window_result SharedChannel s (edge SharedChannel 3500 s) <>
    spec_estimate (pulse_count SharedChannel s)
                  (ulong (3500 - window_start SharedChannel s))
                  (ulong (3500 - last_edge SharedChannel s)).
Proof.
  vm_compute. repeat split; discriminate.
Qed.

(** ** C2: the direct accessors *)

(** C2 (as the code has it).  Each direct accessor (getCurrent, getVoltage,
    getActivePower) first refreshes the pulse width of its quantity:
    getCurrent forces it to 0 when the cached active power is 0; under
    interrupts a stale channel forces to 0 the power width, and on the shared
    channel the width of the selected mode; under polling the power width and
    the width of the selected mode are replaced by what [pulseIn] reports;
    in every other case the width stored at the call is kept.  With [w] the
    width so obtained (as an [unsigned int]), the accessor leaves it in the
    object, returns [multiplier / w / 2] with [valid = true] when [w > 0] and
    [0.0] with [valid = false] when [w = 0], and caches the value it
    returns. *)
Theorem accessor_reads_refreshed_width :
  forall (q : Quantity) (io : Probe) (s : HLW8012),
    let w := ulong (refreshed_width q io s) in
    pulse_width q (fst (accessor q io s)) = refreshed_width q io s /\
    snd (accessor q io s) =
      (if 0 <? w then
         mkMeasurement (F32.div (F32.div (multiplier q s) (F32.of_Z w)) F32.two) true
       else mkMeasurement F32.zero false) /\
    reading q (fst (accessor q io s)) = value (snd (accessor q io s)).
Proof.
  intros q io s w. subst w.
  destruct q; unfold accessor, refreshed_width, pulse_width, multiplier, reading,
    cf1_stale, cf_stale, getCurrent, getVoltage, getActivePower,
    _checkCF1Signal, _checkCFSignal, DIRECT_pinWrite, digitalWrite;
    case_tests; repeat split; discriminate.
Qed.

(** C2 as stated fails on the width stored at the call: after the power
    read timed out the stored current width is still 1234 us, and getCurrent
    returns the invalid 0.0, not [multiplier / 1234 / 2]. *)
Lemma stored_width_ignored_at_zero_power :
  let s := sample_run false lost_power_run in
  pulse_width Current s = 1234 /\
  snd (accessor Current (polled 1234) s) = mkMeasurement F32.zero false /\
  value (snd (accessor Current (polled 1234) s)) <>
    F32.div (F32.div (multiplier Current s) (F32.of_Z 1234)) F32.two.
Proof.
  vm_compute. repeat split; discriminate.
Qed.

(** ** C3: the power factor *)

(** C3 (as the code has it).  getPowerFactor is valid exactly when the active
    and the apparent measurement both are.  It returns 1.0 when the active
    power is strictly greater than the apparent power; otherwise 0.0 when the
    apparent power equals 0; otherwise active / apparent, which is exactly 1.0
    when the two readings are equal, finite and different from zero. *)
Theorem power_factor_cases :
  forall (iop ioc iov : Probe) (s : HLW8012),
    let active := snd (getActivePower iop s) in
    let apparent := snd (getApparentPower ioc iov (fst (getActivePower iop s))) in
    let r := snd (getPowerFactor iop ioc iov s) in
    valid r = valid active && valid apparent /\
    value r =
      (if F32.ltb (value apparent) (value active) then F32.one
       else if F32.eqb (value apparent) F32.zero then F32.zero
       else F32.div (value active) (value apparent)) /\
    (F32.eqb (value active) (value apparent) = true ->
     finite_nonzero (value active) = true ->
     finite_nonzero (value apparent) = true ->
     value r = F32.one).
Proof.
  intros iop ioc iov s active apparent r. subst active apparent r.
  unfold getPowerFactor.
  destruct (getActivePower iop s) as [s1 active].
  cbn [fst snd].
  destruct (getApparentPower ioc iov s1) as [s2 apparent].
  cbn [fst snd].
  assert (Hv : value (snd (if F32.ltb (value apparent) (value active)
                 then (s2, mkMeasurement F32.one (valid active && valid apparent))
                 else if F32.eqb (value apparent) F32.zero
                 then (s2, mkMeasurement F32.zero (valid active && valid apparent))
                 else (s2, mkMeasurement (F32.div (value active) (value apparent))
                             (valid active && valid apparent)))) =
               (if F32.ltb (value apparent) (value active) then F32.one
                else if F32.eqb (value apparent) F32.zero then F32.zero
                else F32.div (value active) (value apparent))).
  { destruct (F32.ltb _ _); [reflexivity |]. destruct (F32.eqb _ _); reflexivity. }
  split; [| split].
  - destruct (F32.ltb _ _); [reflexivity |]. destruct (F32.eqb _ _); reflexivity.
  - exact Hv.
  - intros Heq Ha Hb. rewrite Hv.
    destruct (F32_div_equal _ _ Ha Hb Heq) as (-> & -> & ->). reflexivity.
Qed.

Lemma power_factor_cases_witness :
  value (snd (getPowerFactor (mkProbe 0 0) (mkProbe 0 0) (mkProbe 0 0)
                equal_powers_state)) = F32.one.
Proof.
  apply (power_factor_cases (mkProbe 0 0) (mkProbe 0 0) (mkProbe 0 0) equal_powers_state);
    vm_compute; reflexivity.
Defined.

(** C3 as stated fails: in polling mode with the select line on current, the
    voltage is not measured, the apparent power is 0 and the active power
    positive; the result is 1.0, not 0.0. *)
Lemma power_factor_with_zero_apparent_power :
  let s := sample_begin false in
  let apparent :=
    snd (getApparentPower (polled 1000) (polled 1000)
           (fst (getActivePower (polled 1000) s))) in
  let r := snd (getPowerFactor (polled 1000) (polled 1000) (polled 1000) s) in
  F32.eqb (value apparent) F32.zero = true /\
  value r = F32.one /\
  value r <> F32.zero.
Proof.
  vm_compute. repeat split; discriminate.
Qed.

(** Equal readings need not give 1.0 either: when both calibrations
    overflowed, active and apparent power are both +infinity (and valid) and
    the quotient is NaN. *)
Lemma power_factor_of_infinite_powers :
  let s := sample_run false overflowing_run in
  let active := snd (getActivePower (polled 1000) s) in
  let apparent :=
    snd (getApparentPower (polled 1000) (polled 1000)
           (fst (getActivePower (polled 1000) s))) in
  let r := snd (getPowerFactor (polled 1000) (polled 1000) (polled 1000) s) in
  valid active = true /\ valid apparent = true /\
  F32.eqb (value active) (value apparent) = true /\
  value r = S754_nan.
Proof.
  vm_compute. repeat split.
Qed.

(** ** C4: calibration against a reference value *)

(** C4 (as the code has it).  When the integer part of the cached reading of
    a quantity is 0, the calibration call makes one fresh measurement, which
    changes no multiplier; if that measurement is valid and the integer part
    of its value is above 0, the multiplier of the quantity is multiplied by
    [v / reading], and otherwise the call leaves the state of the
    measurement, with all multipliers as they were. *)
Theorem calibration_on_fresh_measurement :
  forall (q : Quantity) (v : float) (io : Probe) (s : HLW8012),
    F32.to_int (reading q s) = 0 ->
    let r := accessor q io s in
    (forall q', multiplier q' (fst r) = multiplier q' s) /\
    expected q v io s =
      if valid (snd r) && (0 <? F32.to_int (value (snd r))) then
        set_multiplier q (F32.mul (multiplier q s) (F32.div v (value (snd r)))) (fst r)
      else fst r.
Proof.
  intros q v io s Hz r. subst r. split.
  - intro q'. apply accessor_multiplier.
  - rewrite expected_state, Hz. simpl Z.eqb. cbv iota zeta.
    now rewrite accessor_multiplier.
Qed.

Lemma calibration_on_fresh_measurement_witness :
  multiplier Current
    (expected Current (F32.of_Z 10) (polled 1000)
       (sample_run false [call_getActivePower (polled 1000)])) =
  F32.mul (multiplier Current (sample_begin false))
    (F32.div (F32.of_Z 10)
       (F32.div (F32.div (multiplier Current (sample_begin false)) (F32.of_Z 1000))
          F32.two)).
Proof.
  destruct (calibration_on_fresh_measurement Current (F32.of_Z 10) (polled 1000)
              (sample_run false [call_getActivePower (polled 1000)]))
    as [_ H]; [vm_compute; reflexivity |].
  rewrite H. vm_compute. reflexivity.
Defined.

(** C4 as stated fails: a fresh valid reading of 0.72 A (integer part 0) does
    not scale the multiplier; neither does a cached valid reading of 7.2 A,
    for which no measurement is made and the [valid] flag of the call stays
    false. *)
Lemma calibration_skipped :
  let s := sample_run false [call_getActivePower (polled 1000)] in
  let fresh := snd (getCurrent (polled 10000) s) in
  let s' := sample_run false [call_getActivePower (polled 1000);
                              call_getCurrent (polled 1000)] in
  (F32.to_int (reading Current s) = 0 /\
   valid fresh = true /\ F32.ltb F32.zero (value fresh) = true /\
   multiplier Current (expected Current (F32.of_Z 1) (polled 10000) s) =
     multiplier Current s /\
   multiplier Current s <>
     F32.mul (multiplier Current s) (F32.div (F32.of_Z 1) (value fresh))) /\
  (F32.ltb F32.zero (reading Current s') = true /\
   multiplier Current (expected Current (F32.of_Z 10) (polled 1000) s') =
     multiplier Current s' /\
   multiplier Current s' <>
     F32.mul (multiplier Current s') (F32.div (F32.of_Z 10) (reading Current s'))).
Proof.
  vm_compute. repeat split; discriminate.
Qed.

(** ** C5: the sign of the multipliers *)

(** C5 (as the code has it).  With reference constants and initial resistor
    values of clear sign bit, no multiplier is negative after [begin] followed
    by any calls whose reference values and upstream resistor values have a
    clear sign bit (the multiplier may still be zero or NaN); and a
    calibration call that does not go through leaves all three multipliers as
    they were. *)
Theorem multipliers_never_negative :
  forall (V_REF F_OSC : double),
    signbit V_REF = false -> signbit F_OSC = false ->
    (forall (s0 : HLW8012) (cf_pin cf1_pin sel_pin currentWhen : Z)
            (use_interrupts : bool) (pulse_timeout : Z) (cs : list Call) (q : Quantity),
        signbit (_current_resistor s0) = false ->
        signbit (_voltage_resistor s0) = false ->
        Forall call_arguments_signless cs ->
        F32.ltb (multiplier q
                   (run V_REF F_OSC cs
                      (begin V_REF F_OSC cf_pin cf1_pin sel_pin currentWhen
                             use_interrupts pulse_timeout s0)))
                F32.zero = false) /\
    (forall (q q' : Quantity) (v : float) (io : Probe) (s : HLW8012),
        calibration_succeeds q io s = false ->
        multiplier q' (expected q v io s) = multiplier q' s).
Proof.
  intros V F HV HF. split.
  - intros s0 cf_pin cf1_pin sel_pin cw irq timeout cs q Hc Hv Hcs.
    apply signbit_not_negative.
    pose proof (calibration_signs_begin V F s0 cf_pin cf1_pin sel_pin cw irq timeout
                  HV HF Hc Hv) as H0.
    pose proof (calibration_signs_run V F cs _ HV HF Hcs H0) as (_ & _ & Hm).
    apply Hm.
  - intros q q' v io s. apply expected_failed.
Qed.

Lemma multipliers_never_negative_witness :
  F32.ltb (multiplier Voltage
             (sample_run false
                [call_getActivePower (polled 1000);
                 call_expectedCurrent (F32.of_Z 10) (polled 1000);
                 call_setResistors sample_R_CURRENT (F32.of_Z 2350) (F32.of_Z 1)]))
          F32.zero = false.
Proof.
  destruct (multipliers_never_negative sample_V_REF sample_F_OSC) as [H _];
    [reflexivity | reflexivity |].
  apply (H (power_on sample_R_CURRENT sample_R_VOLTAGE) 4 5 12 1 false 1000);
    [reflexivity | reflexivity |].
  repeat constructor.
Defined.

(** C5 as stated fails: a calibration that goes through with the reference
    value -1 makes the positive current multiplier negative, and the reference
    value 0 makes it zero. *)
Lemma negative_reference_value :
  let s := sample_run false [call_getActivePower (polled 1000)] in
  calibration_succeeds Current (polled 1000) s = true /\
  F32.ltb F32.zero (multiplier Current s) = true /\
  F32.ltb (multiplier Current (expected Current (SFopp F32.one) (polled 1000) s))
          F32.zero = true /\
  multiplier Current (expected Current F32.zero (polled 1000) s) = F32.zero.
Proof.
  vm_compute. repeat split.
Qed.

(** ** C6: the guards of setResistors *)

(** C6 (as the code has it).  setResistors changes nothing when the downstream
    value is not greater than 0.  With a downstream value above 0 it stores
    the current resistor only if that value is above 0 (else the previous one
    stays), stores the divider ratio (upstream + downstream) / downstream
    whatever the upstream value, and recomputes the three multipliers. *)
Theorem setResistors_guards :
  forall (V_REF F_OSC : double) (current voltage_upstream voltage_downstream : float)
         (s : HLW8012),
    (F32.ltb F32.zero voltage_downstream = false ->
       setResistors V_REF F_OSC current voltage_upstream voltage_downstream s = s) /\
    (F32.ltb F32.zero voltage_downstream = true ->
       let s' := setResistors V_REF F_OSC current voltage_upstream voltage_downstream s in
       _current_resistor s' =
         (if F32.ltb F32.zero current then current else _current_resistor s) /\
       _voltage_resistor s' =
         F32.div (F32.add voltage_upstream voltage_downstream) voltage_downstream /\
       forall q, multiplier q s' = default_multiplier V_REF F_OSC q s').
Proof.
  intros V F c u d s. unfold setResistors, default_multiplier. split; intro Hd; rewrite Hd.
  - reflexivity.
  - cbv zeta. unfold _calculateDefaultMultipliers.
    destruct (F32.ltb F32.zero c); fields; (split; [reflexivity | split; [reflexivity |]]);
      intro q; destruct q; unfold multiplier; fields; reflexivity.
Qed.

Lemma setResistors_guards_witness :
  setResistors sample_V_REF sample_F_OSC sample_R_CURRENT (F32.of_Z 2350) F32.zero
    (sample_begin false) = sample_begin false.
Proof.
  apply (setResistors_guards sample_V_REF sample_F_OSC sample_R_CURRENT (F32.of_Z 2350)
           F32.zero (sample_begin false)).
  reflexivity.
Defined.

(** C6 as stated fails: with a current resistor value of 0 and a positive
    downstream value the call is no no-op; the divider ratio goes from 2821 to
    1001 and the voltage and power multipliers change. *)
Lemma setResistors_with_zero_current :
  let s := sample_begin false in
  let s' := setResistors sample_V_REF sample_F_OSC F32.zero (F32.of_Z 1000) (F32.of_Z 1) s in
  _voltage_resistor s = F32.of_Z 2821 /\
  _voltage_resistor s' = F32.of_Z 1001 /\
  multiplier Voltage s' <> multiplier Voltage s /\
  multiplier ActivePower s' <> multiplier ActivePower s.
Proof.
  vm_compute. repeat split; discriminate.
Qed.

(** ** C7: a stale shared channel read in current mode *)

(** C7 (as the code has it).  Under interrupts, in current mode and with a
    cached active power different from zero, a getCurrent call that finds the
    last edge of the shared channel older than the timeout returns 0.0 with
    [valid = false], forces the current pulse width to 0, restarts the window
    of the shared channel at the time of the call and switches the mode and
    the select line to the voltage level. *)
Theorem stale_current_read :
  forall (io : Probe) (s : HLW8012),
    _use_interrupts s = true ->
    _mode s = _current_mode s ->
    F32.eqb (_power s) F32.zero = false ->
    cf1_stale (micros io) s = true ->
    let r := getCurrent io s in
    valid (snd r) = false /\ value (snd r) = F32.zero /\
    _current_pulse_width (fst r) = 0 /\
    _first_cf1_interrupt (fst r) = micros io /\
    _last_cf1_interrupt (fst r) = micros io /\
    _cf1_pulse_count (fst r) = 0 /\
    _mode (fst r) = uchar (1 - _current_mode s) /\
    sel_level (fst r) = pin_level (uchar (1 - _current_mode s)) /\
    getMode (fst r) = MODE_VOLTAGE /\
    (_current_mode s = 0 \/ _current_mode s = 1 ->
     sel_level (fst r) = polarity_level (_current_mode s) MODE_VOLTAGE).
Proof.
  intros io s Hirq Hmode Hpow Hstale r. subst r.
  unfold cf1_stale in Hstale.
  unfold getCurrent, _checkCF1Signal, DIRECT_pinWrite, digitalWrite, sel_level, getMode.
  rewrite Hpow, Hirq, Hstale. fields.
  rewrite Hmode, !Z.eqb_refl. fields.
  change (ulong 0) with 0. change (0 <? 0) with false. cbv iota. fields.
  rewrite ?Z.eqb_refl, ?Hmode.
  repeat split.
  - destruct (uchar (1 - _current_mode s) =? _current_mode s) eqn:E; [| reflexivity].
    apply Z.eqb_eq in E. now apply uchar_complement_differs in E.
  - intros [-> | ->]; reflexivity.
Qed.

Lemma stale_current_read_witness :
  let r := getCurrent (mkProbe 20000 0) (sample_run true powered_run) in
  valid (snd r) = false /\ value (snd r) = F32.zero /\
  _current_pulse_width (fst r) = 0 /\ getMode (fst r) = MODE_VOLTAGE /\
  sel_level (fst r) = false.
Proof.
  destruct (stale_current_read (mkProbe 20000 0) (sample_run true powered_run))
    as (H1 & H2 & H3 & _ & _ & _ & _ & H8 & H9 & _);
    try (vm_compute; reflexivity).
  repeat split; assumption.
Defined.

(** C7 as stated fails: right after [begin] the cached active power is 0, and
    getCurrent on a stale shared channel returns the invalid 0.0 but neither
    toggles the mode nor restarts the window. *)
Lemma stale_read_with_zero_power :
  let s := sample_begin true in
  let r := getCurrent (mkProbe 5000 0) s in
  _use_interrupts s = true /\ getMode s = MODE_CURRENT /\ cf1_stale 5000 s = true /\
  valid (snd r) = false /\ value (snd r) = F32.zero /\
  getMode (fst r) = MODE_CURRENT /\
  sel_level (fst r) = polarity_level 1 MODE_CURRENT /\
  sel_level (fst r) <> polarity_level 1 MODE_VOLTAGE /\
  _last_cf1_interrupt (fst r) <> 5000.
Proof.
  vm_compute. repeat split; discriminate.
Qed.

(** ** C8: zero active power forces zero current *)

(** C8.  Whenever the cached active power equals zero, getCurrent forces the
    current pulse width to 0 without asking the platform (its result does not
    depend on the probe) and returns 0.0 with [valid = false], whether
    interrupts are in use or not. *)
Theorem zero_power_forces_zero_current :
  forall (io : Probe) (s : HLW8012),
    F32.eqb (_power s) F32.zero = true ->
    let r := getCurrent io s in
    _current_pulse_width (fst r) = 0 /\
    value (snd r) = F32.zero /\ valid (snd r) = false /\
    forall io' : Probe, getCurrent io' s = r.
Proof.
  intros io s Hp r. subst r. unfold getCurrent. rewrite Hp. fields.
  change (ulong 0) with 0. change (0 <? 0) with false. cbv iota. fields.
  repeat split.
Qed.

Lemma zero_power_forces_zero_current_witness :
  valid (snd (getCurrent (polled 1000) (sample_begin false))) = false /\
  value (snd (getCurrent (polled 1000) (sample_begin false))) = F32.zero.
Proof.
  destruct (zero_power_forces_zero_current (polled 1000) (sample_begin false))
    as (_ & H2 & H3 & _); [reflexivity |].
  split; assumption.
Defined.

(** ** C9: toggleMode, setMode and getMode *)

(** C9.  In every state reachable from [begin] with a binary [currentWhen],
    the select line carries the level of the mode [getMode] reports;
    toggleMode returns the opposite of that mode, leaves the select line at
    the configured level of the mode it returns ([currentWhen] for current,
    its complement for voltage) and getMode then reports it; and getMode
    right after [setMode m] is [m]. *)
Theorem toggle_returns_opposite_mode :
  forall (V_REF F_OSC : double) (currentWhen : Z) (s : HLW8012),
    currentWhen = 0 \/ currentWhen = 1 ->
    reachable V_REF F_OSC currentWhen s ->
    sel_level s = polarity_level currentWhen (getMode s) /\
    (forall now : Z,
       snd (toggleMode now s) = opposite (getMode s) /\
       sel_level (fst (toggleMode now s)) =
         polarity_level currentWhen (snd (toggleMode now s)) /\
       getMode (fst (toggleMode now s)) = snd (toggleMode now s)) /\
    (forall (m : hlw8012_mode_t) (now : Z),
       getMode (setMode m now s) = m /\
       sel_level (setMode m now s) = polarity_level currentWhen m).
Proof.
  intros V F cw s Hcw Hr.
  pose proof (mode_inv_reachable V F cw s Hcw Hr) as Hinv.
  assert (Hset : forall m now,
             getMode (setMode m now s) = m /\
             sel_level (setMode m now s) = polarity_level cw m).
  { intros m now. destruct Hinv as (Hcm & Hm & Hpin).
    unfold getMode, sel_level, setMode, digitalWrite, polarity_level, pin_level.
    destruct Hcw as [-> | ->], m; case_tests;
      rewrite ?Hcm, ?Z.eqb_refl in *; simpl; split; reflexivity || discriminate. }
  split; [| split].
  - destruct Hinv as (Hcm & Hm & Hpin).
    rewrite Hpin. unfold getMode, polarity_level, pin_level. rewrite Hcm.
    destruct Hcw as [-> | ->], Hm as [-> | ->]; reflexivity.
  - intro now. unfold toggleMode. simpl fst. simpl snd.
    split; [destruct (getMode s); reflexivity |].
    destruct (Hset (if hlw8012_mode_eqb (getMode s) MODE_CURRENT
                    then MODE_VOLTAGE else MODE_CURRENT) now) as [H1 H2].
    split; assumption.
  - exact Hset.
Qed.

Lemma toggle_returns_opposite_mode_witness :
  let s := run_call sample_V_REF sample_F_OSC (irq_cf1 2000) (sample_begin true) in
  snd (toggleMode 2400 s) = opposite (getMode s) /\
  getMode (setMode MODE_VOLTAGE 2400 s) = MODE_VOLTAGE.
Proof.
  intro s.
  destruct (toggle_returns_opposite_mode sample_V_REF sample_F_OSC 1 s) as (_ & Ht & Hs).
  - right. reflexivity.
  - apply reach_call.
    exact (reach_begin sample_V_REF sample_F_OSC 1
             (power_on sample_R_CURRENT sample_R_VOLTAGE) 4 5 12 true 1000).
  - split; [apply (Ht 2400) | apply (Hs MODE_VOLTAGE 2400)].
Defined.

(** ** C10: what a read with zero active power leaves alone *)

(** C10.  A getCurrent call made while the cached active power equals zero
    leaves the mode, the select line and the window of the shared channel
    (pulse count, first and last edge timestamp) as they were, whether
    interrupts are in use or not. *)
Theorem zero_power_read_keeps_mode_and_window :
  forall (io : Probe) (s : HLW8012),
    F32.eqb (_power s) F32.zero = true ->
    let s' := fst (getCurrent io s) in
    _mode s' = _mode s /\ getMode s' = getMode s /\
    gpio s' = gpio s /\ sel_level s' = sel_level s /\
    _cf1_pulse_count s' = _cf1_pulse_count s /\
    _first_cf1_interrupt s' = _first_cf1_interrupt s /\
    _last_cf1_interrupt s' = _last_cf1_interrupt s.
Proof.
  intros io s Hp s'. subst s'. unfold getCurrent, getMode, sel_level. rewrite Hp. fields.
  change (ulong 0) with 0. change (0 <? 0) with false. cbv iota. fields.
  repeat split.
Qed.

Lemma zero_power_read_keeps_mode_and_window_witness :
  _mode (fst (getCurrent (mkProbe 5000 0) (sample_begin true))) = _mode (sample_begin true) /\
  _last_cf1_interrupt (fst (getCurrent (mkProbe 5000 0) (sample_begin true))) =
    _last_cf1_interrupt (sample_begin true).
Proof.
  destruct (zero_power_read_keeps_mode_and_window (mkProbe 5000 0) (sample_begin true))
    as (H1 & _ & _ & _ & _ & _ & H7); [reflexivity |].
  split; assumption.
Defined.

(** * Further properties of the driver *)

(** ** The energy counter *)

Lemma total_accessor (q : Quantity) (io : Probe) (s : HLW8012) :
  _cf_pulse_count_total (fst (accessor q io s)) = _cf_pulse_count_total s.
Proof.
  destruct q; unfold accessor, getCurrent, getVoltage, getActivePower,
    _checkCF1Signal, _checkCFSignal, DIRECT_pinWrite, digitalWrite;
    case_tests; reflexivity.
Qed.

Lemma total_expected (q : Quantity) (v : float) (io : Probe) (s : HLW8012) :
  _cf_pulse_count_total (expected q v io s) = _cf_pulse_count_total s.
Proof.
  rewrite expected_state.
  destruct (F32.to_int (reading q s) =? 0); [| reflexivity].
  cbv zeta.
  destruct (valid _ && _); [destruct q; unfold set_multiplier; fields |];
    apply total_accessor.
Qed.

Lemma total_call (V F : double) (c : Call) (s : HLW8012) :
  _cf_pulse_count_total (run_call V F c s) =
    if is_cf_edge c then ulong (_cf_pulse_count_total s + 1)
    else if is_resetEnergy c then 0
    else _cf_pulse_count_total s.
Proof.
  destruct c; cbn [run_call is_cf_edge is_resetEnergy].
  - unfold setMode, digitalWrite. case_tests; reflexivity.
  - unfold toggleMode, setMode, digitalWrite. case_tests; reflexivity.
  - apply (total_accessor Current).
  - apply (total_accessor Voltage).
  - apply (total_accessor ActivePower).
  - rewrite getApparentPower_state.
    now rewrite (total_accessor Voltage), (total_accessor Current).
  - rewrite getReactivePower_state, getApparentPower_state.
    now rewrite (total_accessor Voltage), (total_accessor Current),
      (total_accessor ActivePower).
  - rewrite getPowerFactor_state, getApparentPower_state.
    now rewrite (total_accessor Voltage), (total_accessor Current),
      (total_accessor ActivePower).
  - reflexivity.
  - apply (total_expected Current).
  - apply (total_expected Voltage).
  - apply (total_expected ActivePower).
  - reflexivity.
  - unfold setResistors, _calculateDefaultMultipliers. case_tests; reflexivity.
  - unfold cf_interrupt. case_tests; reflexivity.
  - unfold cf1_interrupt, DIRECT_pinWrite, digitalWrite. case_tests; reflexivity.
Qed.

Lemma total_run (V F : double) (cs : list Call) (s : HLW8012) :
  forallb (fun c => negb (is_resetEnergy c)) cs = true ->
  ulong (_cf_pulse_count_total (run V F cs s)) =
  ulong (_cf_pulse_count_total s + count_cf_edges cs).
Proof.
  revert s. unfold count_cf_edges.
  induction cs as [| c cs IH]; intros s Hcs.
  - simpl. f_equal. lia.
  - cbn [forallb] in Hcs. apply andb_prop in Hcs as [Hc Hcs].
    cbn [run fold_left]. change (fold_left _ cs ?x) with (run V F cs x).
    rewrite (IH _ Hcs), total_call.
    cbn [List.filter].
    destruct (is_cf_edge c).
    + cbn [length]. rewrite Nat2Z.inj_succ.
      unfold ulong. rewrite Zplus_mod_idemp_l. f_equal. lia.
    + destruct (is_resetEnergy c); [discriminate |]. reflexivity.
Qed.

(** X1.  From [resetEnergy] on, the energy counter holds the number of edges
    seen on CF (modulo 2^32), whatever other calls and CF1 edges come in
    between, as long as none of them is [resetEnergy]: every CF edge counts
    once, whether it closes a window or not, and nothing else counts. *)
Theorem energy_counter_counts_edges :
  forall (V_REF F_OSC : double) (cs : list Call) (s : HLW8012),
    forallb (fun c => negb (is_resetEnergy c)) cs = true ->
    _cf_pulse_count_total (run V_REF F_OSC cs (resetEnergy s)) =
      ulong (count_cf_edges cs).
Proof.
  intros V F cs s Hcs.
  pose proof (total_run V F cs (resetEnergy s) Hcs) as H.
  change (_cf_pulse_count_total (resetEnergy s)) with 0 in H.
  rewrite Z.add_0_l in H. rewrite <- H.
  symmetry. apply ulong_small.
  clear H Hcs. 
  assert (G : forall cs s, 0 <= _cf_pulse_count_total s < ULONG_MOD ->
                0 <= _cf_pulse_count_total (run V F cs s) < ULONG_MOD).
  { clear. induction cs as [| c cs IH]; intros s Hs; [exact Hs |].
    cbn [run fold_left]. change (fold_left _ cs ?x) with (run V F cs x).
    apply IH. rewrite total_call.
    destruct (is_cf_edge c); [apply Z.mod_pos_bound; reflexivity |].
    destruct (is_resetEnergy c); [unfold ULONG_MOD; lia | exact Hs]. }
  apply G. cbn. unfold ULONG_MOD. lia.
Qed.

Lemma energy_counter_counts_edges_witness :
  _cf_pulse_count_total
    (run sample_V_REF sample_F_OSC powered_run (resetEnergy (sample_begin true))) = 14.
Proof.
  rewrite (energy_counter_counts_edges sample_V_REF sample_F_OSC powered_run
             (sample_begin true)); reflexivity.
Defined.

(** X2.  [getEnergy] is 0 under polling.  Right after [resetEnergy] it
    compares equal to 0 when the power multiplier is finite; with an infinite
    or NaN power multiplier it is NaN under interrupts (0 times infinity). *)
Theorem energy_after_reset :
  forall s : HLW8012,
    (_use_interrupts s = false -> getEnergy s = F32.zero) /\
    (is_finite (_power_multiplier s) = true ->
       F32.eqb (getEnergy (resetEnergy s)) F32.zero = true) /\
    (_use_interrupts s = true -> is_finite (_power_multiplier s) = false ->
       getEnergy (resetEnergy s) = S754_nan).
Proof.
  intro s. unfold getEnergy, resetEnergy. fields.
  split; [| split].
  - intros ->. reflexivity.
  - intro Hf. destruct (_use_interrupts s); [| reflexivity].
    destruct (_power_multiplier s) as [ b | b | | b m e ]; try discriminate;
      destruct b; vm_compute; reflexivity.
  - intros -> Hf.
    destruct (_power_multiplier s) as [ b | b | | b m e ]; try discriminate;
      vm_compute; reflexivity.
Qed.

Lemma energy_after_reset_witness :
  F32.eqb (getEnergy (resetEnergy (sample_run true powered_run))) F32.zero = true.
Proof.
  apply (energy_after_reset (sample_run true powered_run)).
  vm_compute. reflexivity.
Defined.

(** X3.  As long as [oldvalue + 3 * newvalue] does not overflow 32 bits,
    [filter] returns [newvalue] for an [oldvalue] of 0 and
    [(oldvalue + 3 * newvalue) / 4] otherwise, and its result lies between the
    smaller and the larger of its two arguments. *)
Theorem filter_between :
  forall oldvalue newvalue : Z,
    0 <= oldvalue -> 0 <= newvalue -> oldvalue + 3 * newvalue < ULONG_MOD ->
    Z.min oldvalue newvalue <= filter oldvalue newvalue <= Z.max oldvalue newvalue /\
    (oldvalue = 0 -> filter oldvalue newvalue = newvalue) /\
    (0 < oldvalue -> filter oldvalue newvalue = (oldvalue + 3 * newvalue) / 4).
Proof.
  intros o n Ho Hn Hsum. unfold filter, ULONG_MOD in *.
  assert (H4 : forall x, 0 <= x < 2 ^ 32 -> Z.shiftr (ulong x) 2 = x / 4).
  { intros x Hx. rewrite (ulong_small x Hx). rewrite Z.shiftr_div_pow2 by lia.
    reflexivity. }
  assert (Hn3 : ulong (3 * n) = 3 * n) by (apply ulong_small; unfold ULONG_MOD; lia).
  rewrite Hn3.
  repeat split.
  - destruct (Z.eqb_spec o 0); [lia |]. rewrite H4 by lia.
    apply Z.div_le_lower_bound; lia.
  - destruct (Z.eqb_spec o 0); [lia |]. rewrite H4 by lia.
    apply Z.div_le_upper_bound; lia.
  - intros ->. reflexivity.
  - intro Hpos. destruct (Z.eqb_spec o 0); [lia |]. now rewrite H4 by lia.
Qed.

Lemma filter_between_witness :
  Z.min 1000 2000 <= filter 1000 2000 <= Z.max 1000 2000.
Proof.
  apply (filter_between 1000 2000); vm_compute; (reflexivity || discriminate).
Defined.

(** ** The staleness checks *)

(** X4.  Under interrupts, [getActivePower] on a power channel without an
    edge for more than twice the timeout returns the invalid 0.0, forces the
    power pulse width to 0 and restarts the window of CF; the energy counter
    and the whole shared channel are left alone.  Since the cached power is
    then 0, every following [getCurrent] is invalid too and does not toggle
    the mode. *)
Theorem stale_power_read :
  forall (io : Probe) (s : HLW8012),
    _use_interrupts s = true ->
    cf_stale (micros io) s = true ->
    let r := getActivePower io s in
    valid (snd r) = false /\ value (snd r) = F32.zero /\
    _power_pulse_width (fst r) = 0 /\
    _first_cf_interrupt (fst r) = micros io /\
    _last_cf_interrupt (fst r) = micros io /\
    _cf_pulse_count (fst r) = 0 /\
    _cf_pulse_count_total (fst r) = _cf_pulse_count_total s /\
    shared_channel_view (fst r) = shared_channel_view s /\
    (forall io' : Probe,
       valid (snd (getCurrent io' (fst r))) = false /\
       _mode (fst (getCurrent io' (fst r))) = _mode s /\
       gpio (fst (getCurrent io' (fst r))) = gpio s).
Proof.
  intros io s Hirq Hstale r. subst r. unfold cf_stale in Hstale.
  unfold getActivePower, _checkCFSignal, shared_channel_view.
  rewrite Hirq, Hstale. fields.
  change (ulong 0) with 0. change (0 <? 0) with false. cbv iota. fields.
  repeat split.
Qed.

Lemma stale_power_read_witness :
  let r := getActivePower (mkProbe 30000 0) (sample_run true powered_run) in
  valid (snd r) = false /\ _power_pulse_width (fst r) = 0 /\
  valid (snd (getCurrent (mkProbe 30000 0) (fst r))) = false.
Proof.
  destruct (stale_power_read (mkProbe 30000 0) (sample_run true powered_run))
    as (H1 & _ & H3 & _ & _ & _ & _ & _ & H9);
    try (vm_compute; reflexivity).
  repeat split; first [assumption | apply H9].
Defined.

(** X5.  Under interrupts a staleness check that fired resets the
    last-edge timestamp, so a second check no later than the timeout (twice
    the timeout on CF) after it changes nothing more: there is no second
    toggle. *)
Theorem staleness_checks_settle :
  forall (now now' : Z) (s : HLW8012),
    _use_interrupts s = true ->
    (cf1_stale now s = true ->
     ulong (now' - now) <= _pulse_timeout s ->
     _checkCF1Signal now' (_checkCF1Signal now s) = _checkCF1Signal now s) /\
    (cf_stale now s = true ->
     ulong (now' - now) <= ulong (2 * _pulse_timeout s) ->
     _checkCFSignal now' (_checkCFSignal now s) = _checkCFSignal now s).
Proof.
  intros now now' s Hirq. split; intros Hstale Hle.
  - unfold cf1_stale in Hstale.
    assert (Hno : long_gt_ulong (to_long (now' - now)) (_pulse_timeout s) = false).
    { unfold long_gt_ulong. rewrite ulong_to_long. apply Z.ltb_ge. exact Hle. }
    assert (Hl : _last_cf1_interrupt (_checkCF1Signal now s) = now /\
                 _pulse_timeout (_checkCF1Signal now s) = _pulse_timeout s).
    { unfold _checkCF1Signal, DIRECT_pinWrite, digitalWrite.
      rewrite Hstale, Hirq. case_tests; split; reflexivity. }
    destruct Hl as [Hl Ht].
    set (s1 := _checkCF1Signal now s) in *.
    unfold _checkCF1Signal. rewrite Hl, Ht, Hno. reflexivity.
  - unfold cf_stale in Hstale.
    assert (Hno : long_gt_ulong (to_long (now' - now)) (ulong (2 * _pulse_timeout s))
                  = false).
    { unfold long_gt_ulong. rewrite ulong_to_long. apply Z.ltb_ge. exact Hle. }
    assert (Hl : _last_cf_interrupt (_checkCFSignal now s) = now /\
                 _pulse_timeout (_checkCFSignal now s) = _pulse_timeout s).
    { unfold _checkCFSignal. rewrite Hstale, Hirq. split; reflexivity. }
    destruct Hl as [Hl Ht].
    set (s1 := _checkCFSignal now s) in *.
    unfold _checkCFSignal. rewrite Hl, Ht, Hno. reflexivity.
Qed.

Lemma staleness_checks_settle_witness :
  _checkCF1Signal 5600 (_checkCF1Signal 5000 (sample_begin true)) =
  _checkCF1Signal 5000 (sample_begin true).
Proof.
  apply (staleness_checks_settle 5000 5600 (sample_begin true));
    vm_compute; (reflexivity || discriminate).
Defined.

(** ** What the handlers leave alone *)

(** X6.  Each edge handler keeps to its channel.  [cf_interrupt] touches
    neither pulse width, window, mode nor select line of the shared channel;
    [cf1_interrupt] touches neither the power pulse width, the CF window nor
    the energy counter, and of the two shared pulse widths only the one of
    the mode that was selected.  Neither changes a multiplier, a resistor
    value or a cached reading. *)
Theorem handlers_keep_to_their_channel :
  forall (now : Z) (s : HLW8012),
    (shared_channel_view (cf_interrupt now s) = shared_channel_view s /\
     calibration_view (cf_interrupt now s) = calibration_view s /\
     readings_view (cf_interrupt now s) = readings_view s) /\
    (power_channel_view (cf1_interrupt now s) = power_channel_view s /\
     calibration_view (cf1_interrupt now s) = calibration_view s /\
     readings_view (cf1_interrupt now s) = readings_view s /\
     (_mode s = _current_mode s ->
      _voltage_pulse_width (cf1_interrupt now s) = _voltage_pulse_width s) /\
     (_mode s <> _current_mode s ->
      _current_pulse_width (cf1_interrupt now s) = _current_pulse_width s)).
Proof.
  intros now s. split.
  - unfold shared_channel_view, calibration_view, readings_view, cf_interrupt.
    case_tests; repeat split.
  - unfold power_channel_view, calibration_view, readings_view, cf1_interrupt,
      DIRECT_pinWrite, digitalWrite.
    case_tests; repeat split; intro H;
      solve [ reflexivity
            | apply Z.eqb_eq in H; congruence
            | match goal with E : (_ =? _) = true |- _ =>
                apply Z.eqb_eq in E; contradiction end ].
Qed.

Lemma handlers_keep_to_their_channel_witness :
  _voltage_pulse_width (cf1_interrupt 2000 (sample_begin true)) =
  _voltage_pulse_width (sample_begin true).
Proof.
  destruct (handlers_keep_to_their_channel 2000 (sample_begin true))
    as (_ & _ & _ & _ & H & _).
  apply H. reflexivity.
Defined.

(** ** Calibration along a run *)

Lemma calibration_view_expected_resistors (q : Quantity) (v : float) (io : Probe)
    (s : HLW8012) :
  _current_resistor (expected q v io s) = _current_resistor s /\
  _voltage_resistor (expected q v io s) = _voltage_resistor s.
Proof.
  rewrite expected_state.
  pose proof (calibration_view_accessor q io s) as Hv.
  unfold calibration_view in Hv. injection Hv as Hc Hr _ _ _.
  destruct (F32.to_int (reading q s) =? 0); [| split; reflexivity].
  cbv zeta.
  destruct (valid _ && _); [destruct q; unfold set_multiplier; fields |];
    split; assumption.
Qed.

Lemma calibration_view_call (V F : double) (c : Call) (s : HLW8012) :
  is_calibration c = false ->
  calibration_view (run_call V F c s) = calibration_view s.
Proof.
  intro Hc.
  destruct c; try discriminate Hc; cbn [run_call].
  - apply calibration_view_setMode.
  - apply calibration_view_setMode.
  - apply (calibration_view_accessor Current).
  - apply (calibration_view_accessor Voltage).
  - apply (calibration_view_accessor ActivePower).
  - rewrite getApparentPower_state.
    now rewrite (calibration_view_accessor Voltage), (calibration_view_accessor Current).
  - rewrite getReactivePower_state, getApparentPower_state.
    now rewrite (calibration_view_accessor Voltage), (calibration_view_accessor Current),
      (calibration_view_accessor ActivePower).
  - rewrite getPowerFactor_state, getApparentPower_state.
    now rewrite (calibration_view_accessor Voltage), (calibration_view_accessor Current),
      (calibration_view_accessor ActivePower).
  - reflexivity.
  - apply calibration_view_cf_interrupt.
  - apply calibration_view_cf1_interrupt.
Qed.

(** X7.  Only [expectedCurrent], [expectedVoltage], [expectedActivePower],
    [resetMultipliers] and [setResistors] change a multiplier or a resistor
    value: every other call, and every edge, leaves them as they were. *)
Theorem capture_keeps_calibration :
  forall (V_REF F_OSC : double) (c : Call) (s : HLW8012),
    is_calibration c = false ->
    calibration_view (run_call V_REF F_OSC c s) = calibration_view s.
Proof.
  intros V F c s Hc.
  destruct (is_calibration c) eqn:Hcal; [discriminate Hc |].
  now apply calibration_view_call.
Qed.

Lemma capture_keeps_calibration_witness :
  calibration_view
    (run_call sample_V_REF sample_F_OSC (call_getPowerFactor (polled 1000) (polled 1000)
       (polled 1000)) (sample_begin false)) =
  calibration_view (sample_begin false).
Proof.
  apply (capture_keeps_calibration sample_V_REF sample_F_OSC). reflexivity.
Defined.

Lemma resistors_call (V F : double) (c : Call) (s : HLW8012) :
  is_setResistors c = false ->
  _current_resistor (run_call V F c s) = _current_resistor s /\
  _voltage_resistor (run_call V F c s) = _voltage_resistor s.
Proof.
  intro Hc.
  destruct (is_calibration c) eqn:Hcal.
  - destruct c; try discriminate Hcal; try discriminate Hc; cbn [run_call].
    + apply (calibration_view_expected_resistors Current).
    + apply (calibration_view_expected_resistors Voltage).
    + apply (calibration_view_expected_resistors ActivePower).
    + split; reflexivity.
  - pose proof (calibration_view_call V F c s Hcal) as Hv.
    unfold calibration_view in Hv. injection Hv as H1 H2 _ _ _. split; assumption.
Qed.

Lemma resistors_run (V F : double) (cs : list Call) (s : HLW8012) :
  forallb (fun c => negb (is_setResistors c)) cs = true ->
  _current_resistor (run V F cs s) = _current_resistor s /\
  _voltage_resistor (run V F cs s) = _voltage_resistor s.
Proof.
  revert s. induction cs as [| c cs IH]; intros s Hcs; [split; reflexivity |].
  cbn [forallb] in Hcs. apply andb_prop in Hcs as [Hc Hcs].
  cbn [run fold_left]. change (fold_left _ cs ?x) with (run V F cs x).
  destruct (IH (run_call V F c s) Hcs) as [H1 H2].
  destruct (resistors_call V F c s) as [H3 H4];
    [destruct (is_setResistors c); [discriminate | reflexivity] |].
  split; congruence.
Qed.

Lemma default_multiplier_resistors (V F : double) (q : Quantity) (s s' : HLW8012) :
  _current_resistor s' = _current_resistor s ->
  _voltage_resistor s' = _voltage_resistor s ->
  default_multiplier V F q s' = default_multiplier V F q s.
Proof.
  intros Hc Hv. unfold default_multiplier, _calculateDefaultMultipliers.
  destruct q; unfold multiplier; fields; rewrite ?Hc, ?Hv; reflexivity.
Qed.

(** X8.  After any calls other than [setResistors], [resetMultipliers] gives
    the multipliers it would have given before them: calibration is discarded
    and the last resistor configuration decides.  [resetMultipliers] twice is
    [resetMultipliers] once, and [begin] computes the same multipliers. *)
Theorem resetMultipliers_discards_calibration :
  forall (V_REF F_OSC : double) (cs : list Call) (s : HLW8012) (q : Quantity),
    forallb (fun c => negb (is_setResistors c)) cs = true ->
    multiplier q (resetMultipliers V_REF F_OSC (run V_REF F_OSC cs s)) =
      multiplier q (resetMultipliers V_REF F_OSC s) /\
    resetMultipliers V_REF F_OSC (resetMultipliers V_REF F_OSC s) =
      resetMultipliers V_REF F_OSC s /\
    (forall cf_pin cf1_pin sel_pin currentWhen use_interrupts pulse_timeout,
       multiplier q (begin V_REF F_OSC cf_pin cf1_pin sel_pin currentWhen use_interrupts
                       pulse_timeout s) =
       multiplier q (resetMultipliers V_REF F_OSC s)).
Proof.
  intros V F cs s q Hcs.
  destruct (resistors_run V F cs s Hcs) as [Hc Hv].
  split; [| split].
  - apply (default_multiplier_resistors V F q s (run V F cs s) Hc Hv).
  - reflexivity.
  - intros. unfold begin, resetMultipliers, _calculateDefaultMultipliers, digitalWrite.
    destruct q; unfold multiplier; fields; reflexivity.
Qed.

Lemma resetMultipliers_discards_calibration_witness :
  multiplier Current
    (resetMultipliers sample_V_REF sample_F_OSC
       (run sample_V_REF sample_F_OSC
          [call_getActivePower (polled 1000);
           call_expectedCurrent (F32.of_Z 10) (polled 1000)] (sample_begin false))) =
  multiplier Current (sample_begin false).
Proof.
  destruct (resetMultipliers_discards_calibration sample_V_REF sample_F_OSC
              [call_getActivePower (polled 1000);
               call_expectedCurrent (F32.of_Z 10) (polled 1000)]
              (sample_begin false) Current) as [H _]; [reflexivity |].
  rewrite H. vm_compute. reflexivity.
Defined.

(** ** Modes *)

(** X9.  In every state and for every polarity byte, [getMode] after
    [setMode m] is [m], [toggleMode] moves to the opposite logical mode and
    toggling twice returns to the mode one started from; [setMode] never
    changes the polarity. *)
Theorem logical_mode_round_trip :
  forall (m : hlw8012_mode_t) (now now' : Z) (s : HLW8012),
    getMode (setMode m now s) = m /\
    getMode (fst (toggleMode now s)) = opposite (getMode s) /\
    getMode (fst (toggleMode now' (fst (toggleMode now s)))) = getMode s /\
    _current_mode (setMode m now s) = _current_mode s.
Proof.
  assert (Hset : forall m now s, getMode (setMode m now s) = m).
  { intros m now s. unfold getMode, setMode, digitalWrite.
    destruct m; cbn [hlw8012_mode_eqb]; case_tests; try reflexivity.
    - rewrite Z.eqb_refl in *. discriminate.
    - rewrite Z.eqb_refl in *. discriminate.
    - apply Z.eqb_eq in Heqb0. now apply uchar_complement_differs in Heqb0.
    - apply Z.eqb_eq in Heqb0. now apply uchar_complement_differs in Heqb0. }
  intros m now now' s.
  assert (Ht : forall now s, getMode (fst (toggleMode now s)) = opposite (getMode s)).
  { intros n t. unfold toggleMode. cbn [fst]. rewrite Hset.
    destruct (getMode t); reflexivity. }
  repeat split.
  - apply Hset.
  - apply Ht.
  - rewrite !Ht. destruct (getMode s); reflexivity.
  - unfold setMode, digitalWrite. case_tests; reflexivity.
Qed.

(** X10.  With a polarity byte that is not binary (2..255) the select line
    is driven HIGH in both modes: [1 - currentWhen] wraps to a nonzero byte,
    so the two logical modes are the same physical one. *)
Theorem nonbinary_polarity_select_line :
  forall (m : hlw8012_mode_t) (now : Z) (s : HLW8012),
    2 <= _current_mode s < UCHAR_MOD ->
    sel_level (setMode m now s) = true.
Proof.
  intros m now s Hcw. unfold sel_level, setMode, digitalWrite, UCHAR_MOD in *.
  assert (Hu : uchar (1 - _current_mode s) = 257 - _current_mode s).
  { unfold uchar, UCHAR_MOD. symmetry.
    apply Z.mod_unique_pos with (q := -1); change (2 ^ 8) with 256 in *; lia. }
  change (2 ^ 8) with 256 in Hcw.
  destruct m; cbn [hlw8012_mode_eqb]; case_tests; rewrite ?Z.eqb_refl in *;
    try discriminate; rewrite ?Hu;
    match goal with
    | |- negb (?x =? 0) = true => destruct (Z.eqb_spec x 0); [lia | reflexivity]
    end.
Qed.

Lemma nonbinary_polarity_select_line_witness :
  sel_level (setMode MODE_VOLTAGE 0 (set_current_mode 2 (sample_begin false))) = true.
Proof.
  apply (nonbinary_polarity_select_line MODE_VOLTAGE 0
           (set_current_mode 2 (sample_begin false))).
  vm_compute. split; [discriminate | reflexivity].
Defined.

(** ** Derived quantities *)

Lemma getCurrent_zero_power_invalid (io : Probe) (s : HLW8012) :
  F32.eqb (_power s) F32.zero = true -> valid (snd (getCurrent io s)) = false.
Proof.
  intro Hp. unfold getCurrent. rewrite Hp. fields.
  change (ulong 0) with 0. reflexivity.
Qed.

Lemma getApparentPower_valid (ioc iov : Probe) (s : HLW8012) :
  valid (snd (getApparentPower ioc iov s)) =
  valid (snd (getCurrent ioc s)) && valid (snd (getVoltage iov (fst (getCurrent ioc s)))).
Proof.
  unfold getApparentPower.
  destruct (getCurrent ioc s) as [s1 c]. cbn [fst snd].
  destruct (getVoltage iov s1) as [s2 v]. reflexivity.
Qed.

Lemma getReactivePower_valid (iop ioc iov : Probe) (s : HLW8012) :
  valid (snd (getReactivePower iop ioc iov s)) =
  valid (snd (getActivePower iop s)) &&
  valid (snd (getApparentPower ioc iov (fst (getActivePower iop s)))).
Proof.
  unfold getReactivePower.
  destruct (getActivePower iop s) as [s1 a]. cbn [fst snd].
  destruct (getApparentPower ioc iov s1) as [s2 b]. cbn [fst snd].
  destruct (F32.ltb (value a) (value b)); reflexivity.
Qed.

Lemma getPowerFactor_valid (iop ioc iov : Probe) (s : HLW8012) :
  valid (snd (getPowerFactor iop ioc iov s)) =
  valid (snd (getActivePower iop s)) &&
  valid (snd (getApparentPower ioc iov (fst (getActivePower iop s)))).
Proof.
  unfold getPowerFactor.
  destruct (getActivePower iop s) as [s1 a]. cbn [fst snd].
  destruct (getApparentPower ioc iov s1) as [s2 b]. cbn [fst snd].
  destruct (F32.ltb (value b) (value a)); [reflexivity |].
  destruct (F32.eqb (value b) F32.zero); reflexivity.
Qed.

(** X11.  Whenever [getActivePower] reads 0 (valid or not), the apparent
    power read next is invalid, and so are the reactive power and the power
    factor: the zero power makes [getCurrent] return the invalid 0. *)
Theorem zero_power_invalidates_derived :
  forall (iop ioc iov : Probe) (s : HLW8012),
    F32.eqb (value (snd (getActivePower iop s))) F32.zero = true ->
    valid (snd (getApparentPower ioc iov (fst (getActivePower iop s)))) = false /\
    valid (snd (getReactivePower iop ioc iov s)) = false /\
    valid (snd (getPowerFactor iop ioc iov s)) = false.
Proof.
  intros iop ioc iov s Hz.
  change getActivePower with (accessor ActivePower) in Hz.
  rewrite accessor_reading in Hz. cbn [accessor reading] in Hz.
  assert (Ha : valid (snd (getApparentPower ioc iov (fst (getActivePower iop s)))) = false).
  { rewrite getApparentPower_valid, (getCurrent_zero_power_invalid ioc _ Hz). reflexivity. }
  split; [exact Ha | split].
  - rewrite getReactivePower_valid, Ha. apply andb_false_r.
  - rewrite getPowerFactor_valid, Ha. apply andb_false_r.
Qed.

Lemma zero_power_invalidates_derived_witness :
  valid (snd (getPowerFactor (mkProbe 30000 0) (mkProbe 30000 0) (mkProbe 30000 0)
                (sample_run true powered_run))) = false.
Proof.
  apply (zero_power_invalidates_derived (mkProbe 30000 0) (mkProbe 30000 0)
           (mkProbe 30000 0) (sample_run true powered_run)).
  vm_compute. reflexivity.
Defined.

(** X12.  [getReactivePower] never returns a negative value: it is 0, a
    square root, or NaN. *)
Theorem reactive_power_never_negative :
  forall (iop ioc iov : Probe) (s : HLW8012),
    F32.ltb (value (snd (getReactivePower iop ioc iov s))) F32.zero = false.
Proof.
  intros iop ioc iov s. unfold getReactivePower.
  destruct (getActivePower iop s) as [s1 a]. cbn [fst snd].
  destruct (getApparentPower ioc iov s1) as [s2 b]. cbn [fst snd].
  destruct (F32.ltb (value a) (value b)); cbn [fst snd value]; [| reflexivity].
  unfold F32.sqrtf, F32.ltb.
  destruct (F32.sub _ _) as [ sg | sg | | sg m e ]; try destruct sg; try reflexivity.
  unfold SFsqrt.
  destruct (SFsqrt_core_binary _ _ _ _) as [[mz ez] lz].
  apply signbit_not_negative, signbit_binary_round_aux_false.
Qed.

(** ** The shared channel under interrupts *)

(** X13.  In every state reachable from [begin] with a binary polarity, an
    edge on CF1 that closes the window flips the logical mode and drives the
    select line to the level of the new mode; an edge inside the window leaves
    both alone. *)
Theorem shared_window_closure_toggles :
  forall (V_REF F_OSC : double) (currentWhen now : Z) (s : HLW8012),
    currentWhen = 0 \/ currentWhen = 1 ->
    reachable V_REF F_OSC currentWhen s ->
    (closes_window SharedChannel now s = true ->
       getMode (cf1_interrupt now s) = opposite (getMode s) /\
       sel_level (cf1_interrupt now s) =
         polarity_level currentWhen (opposite (getMode s))) /\
    (closes_window SharedChannel now s = false ->
       getMode (cf1_interrupt now s) = getMode s /\
       sel_level (cf1_interrupt now s) = sel_level s).
Proof.
  intros V F cw now s Hcw Hr.
  destruct (mode_inv_reachable V F cw s Hcw Hr) as (Hcm & Hm & Hpin).
  unfold closes_window, window_start, window_length.
  unfold cf1_interrupt, getMode, sel_level, polarity_level, pin_level, opposite,
    DIRECT_pinWrite, digitalWrite in *.
  split; intro Hc; fields; rewrite Hc; fields.
  - destruct Hcw as [-> | ->], Hm as [Hm | Hm]; rewrite ?Hm, ?Hcm;
      change (uchar (1 - 0)) with 1; change (uchar (1 - 1)) with 0;
      change (uchar (1 - (1 - 0))) with 0; change (uchar (1 - (1 - 1))) with 1;
      case_tests; rewrite ?Hm, ?Hcm, ?Z.eqb_refl in *; repeat split;
      reflexivity || discriminate.
  - repeat split.
Qed.

Lemma shared_window_closure_toggles_witness :
  getMode (cf1_interrupt 2000 (sample_begin true)) = MODE_VOLTAGE.
Proof.
  destruct (shared_window_closure_toggles sample_V_REF sample_F_OSC 1 2000
              (sample_begin true)) as [H _].
  - right. reflexivity.
  - exact (reach_begin sample_V_REF sample_F_OSC 1
             (power_on sample_R_CURRENT sample_R_VOLTAGE) 4 5 12 true 1000).
  - destruct H as [H _]; [vm_compute; reflexivity |]. exact H.
Defined.

(** X17.  Every edge becomes the last edge of its channel.  An edge that
    closes the window starts the next one at its own timestamp with a count of
    0; an edge inside the window keeps the window start, adds 1 to the count
    (modulo 2^32) and changes none of the three pulse widths. *)
Theorem window_bookkeeping :
  forall (ch : Channel) (now : Z) (s : HLW8012),
    last_edge ch (edge ch now s) = now /\
    (closes_window ch now s = true ->
       window_start ch (edge ch now s) = now /\
       pulse_count ch (edge ch now s) = 0) /\
    (closes_window ch now s = false ->
       window_start ch (edge ch now s) = window_start ch s /\
       pulse_count ch (edge ch now s) = ulong (pulse_count ch s + 1) /\
       (forall q, pulse_width q (edge ch now s) = pulse_width q s)).
Proof.
  intros ch now s.
  destruct ch; unfold closes_window, window_start, window_length, last_edge, pulse_count,
    edge, cf_interrupt, cf1_interrupt, DIRECT_pinWrite, digitalWrite; fields.
  - split; [case_tests; reflexivity |].
    split; intro Hc; rewrite Hc; fields.
    + case_tests; split; reflexivity.
    + repeat split; try (intro q; destruct q; reflexivity).
  - split; [case_tests; reflexivity |].
    split; intro Hc; rewrite Hc; fields.
    + case_tests; split; reflexivity.
    + repeat split; try (intro q; destruct q; reflexivity).
Qed.

Lemma window_bookkeeping_witness :
  pulse_count PowerChannel (edge PowerChannel 4300 (sample_run true averaging_run)) = 13.
Proof.
  destruct (window_bookkeeping PowerChannel 4300 (sample_run true averaging_run))
    as (_ & _ & H).
  destruct H as (_ & H & _); [vm_compute; reflexivity |].
  rewrite H. vm_compute. reflexivity.
Defined.

(** X14.  The window test works across the wrap of [micros()]: if the real
    time from the window start to the edge is below 2^32 us, the edge closes
    the window exactly when that time exceeds the window length, and a window
    of at least 10 pulses (with an edge since its start) yields the real
    elapsed time divided by the pulse count. *)
Theorem window_test_survives_wrap :
  forall (ch : Channel) (t_start t_now : Z) (s : HLW8012),
    0 <= t_now - t_start < ULONG_MOD ->
    window_start ch s = ulong t_start ->
    closes_window ch (ulong t_now) s = (window_length ch s <? t_now - t_start) /\
    (closes_window ch (ulong t_now) s = true ->
     10 <= pulse_count ch s ->
     last_edge ch s <> window_start ch s ->
     window_result ch s (edge ch (ulong t_now) s) = (t_now - t_start) / pulse_count ch s).
Proof.
  intros ch t_start t_now s Hel Hst.
  assert (He : ulong (ulong t_now - window_start ch s) = t_now - t_start).
  { rewrite Hst. unfold ulong. rewrite <- Zminus_mod. now apply Z.mod_small. }
  assert (Hc : closes_window ch (ulong t_now) s = (window_length ch s <? t_now - t_start)).
  { unfold closes_window, long_gt_ulong. now rewrite ulong_to_long, He. }
  split; [exact Hc |].
  intros Hclose Hcount Hne.
  apply Z.eqb_neq in Hne.
  assert (H3 : (pulse_count ch s <? 3) = false) by (apply Z.ltb_ge; lia).
  assert (H10 : (pulse_count ch s <? 10) = false) by (apply Z.ltb_ge; lia).
  destruct ch; unfold closes_window, window_length, window_start, last_edge,
    pulse_count in *;
    unfold window_result, edge, cf_interrupt, cf1_interrupt, shared_pulse_width,
      long_div_ulong, DIRECT_pinWrite, digitalWrite;
    fields; rewrite Hclose; fields; rewrite Hne, H3, H10; cbn [orb];
    rewrite ?ulong_to_long, He; fields.
  - reflexivity.
  - case_tests; reflexivity || discriminate.
Qed.

Lemma window_test_survives_wrap_witness :
  closes_window PowerChannel (ulong (4294967296 + 500))
    (set_first_cf_interrupt (ulong (4294967296 - 2000)) (sample_begin true)) = true.
Proof.
  destruct (window_test_survives_wrap PowerChannel (4294967296 - 2000) (4294967296 + 500)
              (set_first_cf_interrupt (ulong (4294967296 - 2000)) (sample_begin true)))
    as [H _].
  - vm_compute. split; [discriminate | reflexivity].
  - reflexivity.
  - rewrite H. vm_compute. reflexivity.
Defined.

(** ** Polling *)

(** X15.  Under polling no read changes the mode or the select line, and
    only the selected signal is measured: in current mode [getVoltage] asks
    nothing and keeps the stored voltage width while [getCurrent] stores what
    [pulseIn] reports (when the cached power is not zero); in voltage mode
    [getCurrent] asks nothing and [getVoltage] stores what [pulseIn]
    reports. *)
Theorem polling_reads_selected_signal_only :
  forall (io : Probe) (s : HLW8012),
    _use_interrupts s = false ->
    (_mode (fst (getCurrent io s)) = _mode s /\
     gpio (fst (getCurrent io s)) = gpio s /\
     _mode (fst (getVoltage io s)) = _mode s /\
     gpio (fst (getVoltage io s)) = gpio s) /\
    (_mode s = _current_mode s ->
       (forall io' : Probe, getVoltage io' s = getVoltage io s) /\
       _voltage_pulse_width (fst (getVoltage io s)) = _voltage_pulse_width s /\
       (F32.eqb (_power s) F32.zero = false ->
        _current_pulse_width (fst (getCurrent io s)) = pulseIn io)) /\
    (_mode s <> _current_mode s ->
       (forall io' : Probe, getCurrent io' s = getCurrent io s) /\
       _voltage_pulse_width (fst (getVoltage io s)) = pulseIn io).
Proof.
  intros io s Hirq. unfold getCurrent, getVoltage. rewrite Hirq.
  split; [| split].
  - case_tests; repeat split.
  - intros Hm. apply Z.eqb_eq in Hm. rewrite Hm. cbn [negb].
    split; [reflexivity |]. split.
    + case_tests; reflexivity.
    + intros ->. case_tests; reflexivity.
  - intros Hm. apply Z.eqb_neq in Hm. rewrite Hm. cbn [negb].
    split; [reflexivity |]. case_tests; reflexivity.
Qed.

Lemma polling_reads_selected_signal_only_witness :
  _current_pulse_width
    (fst (getCurrent (polled 777)
            (sample_run false [call_getActivePower (polled 1000)]))) = 777.
Proof.
  destruct (polling_reads_selected_signal_only (polled 777)
              (sample_run false [call_getActivePower (polled 1000)]))
    as (_ & H & _); [reflexivity |].
  destruct H as (_ & _ & H); [reflexivity |].
  apply H. vm_compute. reflexivity.
Defined.

(** ** Multiplication by one *)

Lemma digits2_pos_shift23 (m : positive) :
  Z.pos (digits2_pos (m * 8388608)) = Z.pos (digits2_pos m) + 23.
Proof.
  rewrite Pos.mul_comm. cbn [Pos.mul digits2_pos]. lia.
Qed.

Lemma iter_shr_1_shift23 (m : positive) :
  iter_pos shr_1 23 (Build_shr_record (Z.pos (m * 8388608)) false false) =
  Build_shr_record (Z.pos m) false false.
Proof.
  rewrite Pos.mul_comm. reflexivity.
Qed.

Lemma SFmul_one (x : float) :
  valid_binary 24 128 x = true -> F32.mul x F32.one = x.
Proof.
  destruct x as [ s | s | | s m e ]; try (destruct s; reflexivity); [reflexivity |].
  unfold valid_binary, bounded, canonical_mantissa. intro Hb.
  apply andb_prop in Hb as [Hc He]. apply Z.eqb_eq in Hc.
  change F32.one with (S754_finite false 8388608 (-23)).
  unfold F32.mul, F32.prec, F32.emax, SFmul, binary_round_aux.
  rewrite xorb_false_r.
  assert (H1 : shr_fexp 24 128 (Z.pos (m * 8388608)) (e + -23) loc_Exact =
               (Build_shr_record (Z.pos m) false false, e)).
  { unfold shr_fexp, Zdigits2. rewrite digits2_pos_shift23.
    replace (Z.pos (digits2_pos m) + 23 + (e + -23)) with (Z.pos (digits2_pos m) + e)
      by lia.
    rewrite Hc. replace (e - (e + -23)) with 23 by lia.
    unfold shr, shr_record_of_loc. rewrite iter_shr_1_shift23.
    f_equal. lia. }
  rewrite H1. cbn [shr_m loc_of_shr_record round_nearest_even].
  assert (H2 : shr_fexp 24 128 (Z.pos m) e loc_Exact =
               (Build_shr_record (Z.pos m) false false, e)).
  { unfold shr_fexp, Zdigits2. rewrite Hc, Z.sub_diag. reflexivity. }
  rewrite H2. cbn [shr_m]. rewrite He. reflexivity.
Qed.

(** X16.  A calibration that goes through against a reference value equal to
    the fresh reading (finite and not zero) changes no multiplier, provided
    the multiplier is a well-formed binary32 value: the scale factor is
    exactly 1. *)
Theorem calibration_against_own_reading :
  forall (q : Quantity) (v : float) (io : Probe) (s : HLW8012),
    calibration_succeeds q io s = true ->
    F32.eqb v (value (snd (accessor q io s))) = true ->
    finite_nonzero v = true ->
    finite_nonzero (value (snd (accessor q io s))) = true ->
    valid_binary 24 128 (multiplier q s) = true ->
    forall q', multiplier q' (expected q v io s) = multiplier q' s.
Proof.
  intros q v io s Hs Heq Hv Hr Hm q'.
  unfold calibration_succeeds in Hs.
  apply andb_prop in Hs as [Hs Hpos]. apply andb_prop in Hs as [Hz Hval].
  rewrite expected_state, Hz. cbv zeta. rewrite Hval, Hpos. cbn [andb].
  destruct (F32_div_equal _ _ Hv Hr Heq) as (_ & _ & Hone).
  rewrite Hone, accessor_multiplier, (SFmul_one _ Hm).
  destruct q, q'; unfold set_multiplier, multiplier; fields;
    first [ reflexivity
          | apply (accessor_multiplier Current Current)
          | apply (accessor_multiplier Current Voltage)
          | apply (accessor_multiplier Current ActivePower)
          | apply (accessor_multiplier Voltage Current)
          | apply (accessor_multiplier Voltage Voltage)
          | apply (accessor_multiplier Voltage ActivePower)
          | apply (accessor_multiplier ActivePower Current)
          | apply (accessor_multiplier ActivePower Voltage)
          | apply (accessor_multiplier ActivePower ActivePower) ].
Qed.

Lemma calibration_against_own_reading_witness :
  multiplier Current
    (expected Current own_reading (polled 1000)
       (sample_run false [call_getActivePower (polled 1000)])) =
  multiplier Current (sample_run false [call_getActivePower (polled 1000)]).
Proof.
  apply (calibration_against_own_reading Current own_reading (polled 1000)
           (sample_run false [call_getActivePower (polled 1000)]));
    vm_compute; reflexivity.
Defined.
